(** * SENTINEL: the presentation layer and the orchestrator's contracts

    A shallow embedding of the two front ends of the repository (the
    vanilla-JS [SentinelApp] class and the React pages [AnalysisPage] and
    [EducationPage]) together with the two core contracts the specification
    describes but whose code is not part of the sources at hand (the Risk
    Aggregator and the Conversation Store).

    Layout: the JavaScript values and the few language operations the
    sources use, a small effect monad for the event handlers, the front
    ends, the spec-modelled core, and then the theorems. *)

From Stdlib Require Import ZArith NArith QArith String Ascii List DecimalString Lia.
From stdpp Require Import base option list strings gmap.

#[local] Set Warnings "-register-all".
#[local] Open Scope Z_scope.

(* ===================================================================== *)
(** ** JavaScript values *)
(* ===================================================================== *)

Module JS.

(** A JavaScript string is a sequence of UTF-16 code units. *)
Abbreviation jsstring := (list N).

(** A literal of the sources; all of them are ASCII. *)
Definition js (s : string) : jsstring :=
  (fun a => N_of_ascii a) <$> list_ascii_of_string s.
Arguments js s%_string.

(** Exceptions.  The text of an engine's own TypeError or SyntaxError is
    implementation-defined and left out. *)
Inductive Exn : Type :=
| TypeError
| SyntaxError
| Error (message : jsstring)
| OtherError (name message : jsstring).

(** An expression yields a value or throws. *)
Inductive Outcome (A : Type) : Type :=
| Return (a : A)
| Throw (e : Exn).
Arguments Return {A} a.
Arguments Throw {A} e.

Definition bind_outcome {A B} (k : A -> Outcome B) (o : Outcome A) : Outcome B :=
  match o with
  | Return a => k a
  | Throw e => Throw e
  end.

(** Sequencing is written [x ← e; k]. *)
#[global] Instance Outcome_ret : MRet Outcome := fun A => Return.
#[global] Instance Outcome_bind : MBind Outcome := fun A B => bind_outcome.

(** [arr.map(f)] where [f] may throw: the first exception ends it. *)
Fixpoint map_outcome {A B} (f : A -> Outcome B) (l : list A) : Outcome (list B) :=
  match l with
  | [] => Return []
  | x :: rest =>
      match f x with
      | Throw e => Throw e
      | Return y =>
          match map_outcome f rest with
          | Throw e => Throw e
          | Return ys => Return (y :: ys)
          end
      end
  end.

(** Values: what [JSON.parse] yields, [undefined] (a property that is not
    there), and what an object literal inherits: the built-in functions of
    [Object.prototype] and that object itself.  A [JNum z] is the Number
    whose value is the integer [z]; the sources never compute with a
    fractional Number.  The properties of a [JObj] are data parsed from
    JSON, so none of them is callable. *)
Inductive JSValue : Type :=
| JUndefined
| JNull
| JBool (b : bool)
| JNum (z : Z)
| JStr (s : jsstring)
| JArr (items : list JSValue)
| JObj (props : gmap jsstring JSValue)
| JFunction (name : jsstring) (arity : Z)
| JObjectPrototype.

(** ToBoolean. *)
Definition truthy (v : JSValue) : bool :=
  match v with
  | JUndefined | JNull => false
  | JBool b => b
  | JNum z => negb (z =? 0)
  | JStr s => match s with [] => false | _ :: _ => true end
  | JArr _ | JObj _ | JFunction _ _ | JObjectPrototype => true
  end.

(** [a || b] *)
Definition js_or (a b : JSValue) : JSValue := if truthy a then a else b.

(** [Array.prototype.join] on strings already converted. *)
Fixpoint join (sep : jsstring) (parts : list jsstring) : jsstring :=
  match parts with
  | [] => []
  | [p] => p
  | p :: rest => p ++ sep ++ join sep rest
  end.

(** ToString, as used by template literals, by [+] with a string and by
    computed property keys.  Integers print in decimal (below 10^21); the
    text of a native function is the one V8 prints.  An object whose own
    [toString] is data has no usable conversion: a TypeError. *)
Fixpoint ToString (v : JSValue) : Outcome jsstring :=
  match v with
  | JUndefined => Return (js "undefined")
  | JNull => Return (js "null")
  | JBool true => Return (js "true")
  | JBool false => Return (js "false")
  | JNum z => Return (js (NilZero.string_of_int (Z.to_int z)))
  | JStr s => Return s
  | JArr items =>
      match map_outcome (fun x => match x with
                                  | JUndefined | JNull => Return []
                                  | _ => ToString x
                                  end) items with
      | Return parts => Return (join (js ",") parts)
      | Throw e => Throw e
      end
  | JObj props =>
      match props !! js "toString" with
      | None => Return (js "[object Object]")
      | Some _ => Throw TypeError
      end
  | JFunction name _ =>
      Return (js "function " ++ name ++ js "() { [native code] }")
  | JObjectPrototype => Return (js "[object Object]")
  end.

(** The functions every object literal inherits from [Object.prototype]
    (ECMAScript 20.1.3 and, for browsers, Annex B.2.2). *)
Definition Object_prototype : gmap jsstring JSValue :=
  list_to_map
    [ (js "constructor", JFunction (js "Object") 1);
      (js "hasOwnProperty", JFunction (js "hasOwnProperty") 1);
      (js "isPrototypeOf", JFunction (js "isPrototypeOf") 1);
      (js "propertyIsEnumerable", JFunction (js "propertyIsEnumerable") 1);
      (js "toLocaleString", JFunction (js "toLocaleString") 0);
      (js "toString", JFunction (js "toString") 0);
      (js "valueOf", JFunction (js "valueOf") 0);
      (js "__defineGetter__", JFunction (js "__defineGetter__") 2);
      (js "__defineSetter__", JFunction (js "__defineSetter__") 2);
      (js "__lookupGetter__", JFunction (js "__lookupGetter__") 1);
      (js "__lookupSetter__", JFunction (js "__lookupSetter__") 1) ].

(** [obj[k]] on a plain object with own properties [own]: the own property
    when there is one, else the inherited one ([__proto__] is the accessor
    that answers [Object.prototype] itself), else [undefined]. *)
Definition get (own : gmap jsstring JSValue) (k : jsstring) : JSValue :=
  match own !! k with
  | Some v => v
  | None =>
      if decide (k = js "__proto__") then JObjectPrototype
      else default JUndefined (Object_prototype !! k)
  end.

(** [obj[key]] with a key that is any value: the key is converted first. *)
Definition index (own : gmap jsstring JSValue) (key : JSValue) : Outcome JSValue :=
  k ← ToString key; mret (get own k).

(** An object literal [{k1: v1, ...}]. *)
Definition object (props : list (string * JSValue)) : gmap jsstring JSValue :=
  list_to_map (prod_map js id <$> props).

(** WhiteSpace and LineTerminator code units, the ones [trim] removes. *)
Definition is_whitespace (c : N) : bool :=
  bool_decide (c ∈ [9; 10; 11; 12; 13; 32; 160; 5760; 8232; 8233; 8239; 8287;
                    12288; 65279]%N)
  || ((8192 <=? c)%N && (c <=? 8202)%N).

Fixpoint trim_start (s : jsstring) : jsstring :=
  match s with
  | c :: rest => if is_whitespace c then trim_start rest else s
  | [] => []
  end.

(** [String.prototype.trim] *)
Definition trim (s : jsstring) : jsstring :=
  rev (trim_start (rev (trim_start s))).

(** The properties of a response body the front ends read by name.  None
    of these names is a property of a string, a number, a boolean, an
    array or a function, nor of [Object.prototype]. *)
Inductive Field : Type :=
| riskLevel | summary | evidence | recommendations
| source | status | details | error.

Definition field_name (f : Field) : jsstring :=
  match f with
  | riskLevel => js "riskLevel"
  | summary => js "summary"
  | evidence => js "evidence"
  | recommendations => js "recommendations"
  | source => js "source"
  | status => js "status"
  | details => js "details"
  | error => js "error"
  end.

(** [v.f]: a TypeError on [null] and [undefined]. *)
Definition get_field (v : JSValue) (f : Field) : Outcome JSValue :=
  match v with
  | JUndefined | JNull => Throw TypeError
  | JObj props => Return (get props (field_name f))
  | JBool _ | JNum _ | JStr _ | JArr _ | JFunction _ _ | JObjectPrototype =>
      Return JUndefined
  end.

(** What a DOM attribute of type [DOMString?] such as [textContent] keeps
    of an assigned value: [null] and [undefined] give the empty string. *)
Definition to_text (v : JSValue) : Outcome jsstring :=
  match v with
  | JUndefined | JNull => Return []
  | _ => ToString v
  end.

End JS.
Import JS.

(* ===================================================================== *)
(** ** The risk levels of the verdict contract *)
(* ===================================================================== *)

(** The four risk levels of the data model, in their order, and the
    strings that stand for them in the verdict JSON. *)
Inductive RiskLevel : Type := Low | Medium | High | Critical.

Definition level_string (l : RiskLevel) : jsstring :=
  match l with
  | Low => js "low"
  | Medium => js "medium"
  | High => js "high"
  | Critical => js "critical"
  end.

Definition level_rank (l : RiskLevel) : nat :=
  match l with Low => 0 | Medium => 1 | High => 2 | Critical => 3 end.

(* ===================================================================== *)
(** ** Event handlers: state, exceptions and the outside world *)
(* ===================================================================== *)

Module Eff.

(** A file picked in a file input. *)
Record File : Type := { file_name : jsstring }.

Inductive Body : Type :=
| JsonBody (v : JSValue)                        (* JSON.stringify(v) *)
| FormData (fields : list (jsstring * File)).

Record Request : Type := {
  url : jsstring;
  method : jsstring;
  headers : list (jsstring * jsstring);
  body : Body
}.

(** What a [fetch] comes to: the promise rejects, or it resolves with a
    response whose [ok] flag and [json()] result are given. *)
Inductive FetchOutcome : Type :=
| Rejects (e : Exn)
| Responds (ok : bool) (json : Outcome JSValue).

(** What a handler does to the outside, in order. *)
Inductive Event : Type :=
| Fetch (req : Request)
| Alert (message : jsstring)
| ConsoleError (label : jsstring) (e : Exn)
| ScrollIntoView
| FilePicker.

(** The world of a handler: the state [S] of its page, what it did so
    far, and how the network answers. *)
Record World (S : Type) : Type := {
  state : S;
  events : list Event;
  network : Request -> FetchOutcome
}.
Arguments state {S} w.
Arguments events {S} w.
Arguments network {S} w.

(** A handler may throw; the state it reached stays. *)
Definition M (S A : Type) : Type := World S -> Outcome A * World S.

Definition ret {S A} (a : A) : M S A := fun w => (Return a, w).

Definition bind {S A B} (m : M S A) (k : A -> M S B) : M S B :=
  fun w => match m w with
           | (Return a, w') => k a w'
           | (Throw e, w') => (Throw e, w')
           end.

#[global] Instance M_ret {S} : MRet (M S) := fun A => ret.
#[global] Instance M_bind {S} : MBind (M S) := fun A B k m => bind m k.

Definition throw {S A} (e : Exn) : M S A := fun w => (Throw e, w).

(** An expression that may throw, inside a handler. *)
Definition lift {S A} (o : Outcome A) : M S A := fun w => (o, w).

(** [try { m } catch (e) { handler e }] *)
Definition try_catch {S A} (m : M S A) (handler : Exn -> M S A) : M S A :=
  fun w => match m w with
           | (Return a, w') => (Return a, w')
           | (Throw e, w') => handler e w'
           end.

(** [try { m } finally { f }]: [f] runs either way; the outcome is [m]'s
    unless [f] itself throws. *)
Definition try_finally {S A} (m : M S A) (f : M S unit) : M S A :=
  fun w => match m w with
           | (o, w') => match f w' with
                        | (Return _, w'') => (o, w'')
                        | (Throw e, w'') => (Throw e, w'')
                        end
           end.

Definition get_state {S} : M S S := fun w => (Return (state w), w).

Definition modify {S} (f : S -> S) : M S unit :=
  fun w => (Return tt, {| state := f (state w); events := events w;
                          network := network w |}).

Definition emit {S} (ev : Event) : M S unit :=
  fun w => (Return tt, {| state := state w; events := events w ++ [ev];
                          network := network w |}).

(** [await fetch(...)]: the request goes out and the promise settles. *)
Definition fetch {S} (req : Request) : M S (bool * Outcome JSValue) :=
  fun w =>
    let w' := {| state := state w; events := events w ++ [Fetch req];
                 network := network w |} in
    match network w req with
    | Rejects e => (Throw e, w')
    | Responds ok json => (Return (ok, json), w')
    end.

(** A call of an async function that is not awaited: what it throws stays
    in its promise, and the caller goes on. *)
Definition detached {S} (m : M S unit) : M S unit :=
  fun w => (Return tt, (m w).2).

(** The requests a handler sent. *)
Definition requests (evs : list Event) : list Request :=
  omap (fun ev => match ev with Fetch r => Some r | _ => None end) evs.

(** The messages a handler showed in an alert box. *)
Definition alerts (evs : list Event) : list jsstring :=
  omap (fun ev => match ev with Alert m => Some m | _ => None end) evs.

End Eff.
Import Eff.

(* ===================================================================== *)
(** ** The vanilla-JS front end: [SentinelApp] *)
(* ===================================================================== *)

Module SentinelApp.

(** *** The page, as far as the class touches it *)

(** [#threat-input] *)
Record InputEl : Type := { value : jsstring; input_disabled : bool }.

(** [.console-actions .btn-primary] *)
Record ButtonEl : Type := { btn_disabled : bool; btn_text : jsstring }.

(** [.console-results] and the elements looked up inside it; [None] is an
    element the page does not have ([querySelector] answers [null]).  The
    elements are those of the static page, each found by its own selector. *)
Record ResultsEl : Type := {
  badge_className : option jsstring;        (* .badge *)
  badge_textContent : jsstring;
  summary_textContent : option jsstring;    (* .result-section-content *)
  riskValue_textContent : option jsstring;  (* .risk-indicator-value *)
  riskFill_width : option jsstring;         (* .risk-indicator-fill, style.width *)
  riskFill_data_risk : jsstring;            (* its data-risk attribute *)
  riskDescription_textContent : option jsstring; (* .risk-indicator-description *)
  tbody_innerHTML : option jsstring;        (* .table tbody *)
  result_list_innerHTML : option jsstring;  (* .result-list *)
  style_display : jsstring
}.

Record Page : Type := {
  threat_input : option InputEl;
  analyze_btn : option ButtonEl;
  console_results : option ResultsEl
}.

Inductive Write : Type :=
| BadgeClassName | BadgeText | SummaryText | RiskValueText | RiskFillWidth
| RiskFillDataRisk | RiskDescriptionText | TbodyHTML | ResultListHTML
| StyleDisplay.

(** One assignment to an element of the results section. *)
Definition assign (target : Write) (s : jsstring) (r : ResultsEl) : ResultsEl :=
  {| badge_className :=
       match target with BadgeClassName => Some s | _ => badge_className r end;
     badge_textContent :=
       match target with BadgeText => s | _ => badge_textContent r end;
     summary_textContent :=
       match target with SummaryText => Some s | _ => summary_textContent r end;
     riskValue_textContent :=
       match target with RiskValueText => Some s | _ => riskValue_textContent r end;
     riskFill_width :=
       match target with RiskFillWidth => Some s | _ => riskFill_width r end;
     riskFill_data_risk :=
       match target with RiskFillDataRisk => s | _ => riskFill_data_risk r end;
     riskDescription_textContent :=
       match target with
       | RiskDescriptionText => Some s
       | _ => riskDescription_textContent r
       end;
     tbody_innerHTML :=
       match target with TbodyHTML => Some s | _ => tbody_innerHTML r end;
     result_list_innerHTML :=
       match target with ResultListHTML => Some s | _ => result_list_innerHTML r end;
     style_display :=
       match target with StyleDisplay => s | _ => style_display r end |}.

Definition write (target : Write) (s : jsstring) : M Page unit :=
  modify (fun p =>
    {| threat_input := threat_input p;
       analyze_btn := analyze_btn p;
       console_results := assign target s <$> console_results p |}).

(** [this.apiEndpoint] *)
Definition apiEndpoint : jsstring := js "/api/analyze".

(** *** The rendering helpers *)

Definition formatRiskLevel (level : JSValue) : Outcome JSValue :=
  let levels := object
    [ ("low", JStr (js "Low Risk"));
      ("medium", JStr (js "Medium Risk"));
      ("high", JStr (js "High Risk"));
      ("critical", JStr (js "Critical Risk")) ] in
  found ← index levels level;
  mret (js_or found level).

Definition getRiskPercentage (level : JSValue) : Outcome JSValue :=
  let percentages := object
    [ ("low", JNum 25);
      ("medium", JNum 60);
      ("high", JNum 85);
      ("critical", JNum 100) ] in
  found ← index percentages level;
  mret (js_or found (JNum 50)).

Definition getRiskDescription (level : JSValue) : Outcome JSValue :=
  let descriptions := object
    [ ("low", JStr (js "Minimal risk indicators detected. Appears legitimate."));
      ("medium", JStr (js "Multiple suspicious indicators detected. Proceed with caution."));
      ("high", JStr (js "High likelihood of malicious intent. Avoid interaction."));
      ("critical", JStr (js "Confirmed threat. Do not interact under any circumstances.")) ] in
  found ← index descriptions level;
  mret (js_or found (JStr (js "Risk assessment in progress."))).

Definition getStatusBadge (status : JSValue) : Outcome JSValue :=
  let badges := object
    [ ("clean", JStr (js "low"));
      ("suspicious", JStr (js "medium"));
      ("malicious", JStr (js "high"));
      ("recent", JStr (js "medium"));
      ("complete", JStr (js "info")) ] in
  found ← index badges status;
  mret (js_or found (JStr (js "info"))).

(** The class name given to the risk badge: [`badge badge-${level}`]. *)
Definition riskBadgeClass (level : JSValue) : Outcome jsstring :=
  l ← ToString level; mret (js "badge badge-" ++ l).

(** The class of the status badge of an evidence row:
    [badge badge-${this.getStatusBadge(status)}]. *)
Definition statusBadgeClass (status : JSValue) : Outcome jsstring :=
  b ← getStatusBadge status; l ← ToString b; mret (js "badge badge-" ++ l).

(** The width of the indicator bar: [getRiskPercentage(level) + '%']. *)
Definition riskWidth (level : JSValue) : Outcome jsstring :=
  p ← getRiskPercentage level; l ← ToString p; mret (l ++ js "%").

Definition nl : jsstring := [10%N].
Definition quote : jsstring := [34%N].

Definition recommendationItem (rec : JSValue) : Outcome jsstring :=
  r ← ToString rec;
  mret (nl ++ js "        <li>" ++ r ++ js "</li>" ++ nl ++ js "      ").

(** [v.map(f).join('')]: only an array has [map]. *)
Definition map_join (f : JSValue -> Outcome jsstring) (v : JSValue)
  : Outcome jsstring :=
  match v with
  | JArr items => parts ← map_outcome f items; mret (join [] parts)
  | JUndefined | JNull | JBool _ | JNum _ | JStr _ | JObj _ | JFunction _ _
  | JObjectPrototype => Throw TypeError
  end.

Definition showError (message : jsstring) : M Page unit :=
  emit (Alert message).

Definition setLoadingState (isLoading : bool) : M Page unit :=
  modify (fun p =>
    {| threat_input :=
         (fun el => {| value := value el; input_disabled := isLoading |})
           <$> threat_input p;
       analyze_btn :=
         (fun _ => {| btn_disabled := isLoading;
                      btn_text := if isLoading then js "Analyzing..."
                                  else js "Analyze" |})
           <$> analyze_btn p;
       console_results := console_results p |}).

(** The part of [analyzeInput] and [analyzeImage] after the [fetch]. *)
Definition unwrap (fallback : string) (response : bool * Outcome JSValue)
  : M Page JSValue :=
  if negb response.1 then
    err ← lift response.2;
    detail ← lift (get_field err error);
    message ← lift (ToString (js_or detail (JStr (js fallback))));
    throw (Error message)
  else lift response.2.

Definition analyzeInput (input : jsstring) : M Page JSValue :=
  response ← fetch {| url := apiEndpoint;
                      method := js "POST";
                      headers := [(js "Content-Type", js "application/json")];
                      body := JsonBody (JObj (object [("input", JStr input)])) |};
  unwrap "API request failed" response.

Definition analyzeImage (file : File) : M Page JSValue :=
  response ← fetch {| url := apiEndpoint ++ js "/image";
                      method := js "POST";
                      headers := [];
                      body := FormData [(js "image", file)] |};
  unwrap "Image upload failed" response.

Section WithEngine.

(** [String.prototype.toUpperCase], the Unicode mapping of the engine. *)
Variable toUpperCase : jsstring -> jsstring.

(** [status.charAt(0).toUpperCase() + status.slice(1)]; only a string has
    [charAt]. *)
Definition formatStatus (status : JSValue) : Outcome jsstring :=
  match status with
  | JStr s => Return (toUpperCase (take 1 s) ++ drop 1 s)
  | _ => Throw TypeError
  end.

(** The row of the evidence table that the template literal builds. *)
Definition evidenceRow (item : JSValue) : Outcome jsstring :=
  src ← get_field item source;
  src ← ToString src;
  st ← get_field item status;
  cls ← statusBadgeClass st;
  label ← formatStatus st;
  det ← get_field item details;
  det ← ToString det;
  mret (nl ++ js "        <tr>" ++ nl
        ++ js "          <td>" ++ src ++ js "</td>" ++ nl
        ++ js "          <td><span class=" ++ quote ++ cls ++ quote ++ js ">"
        ++ label ++ js "</span></td>" ++ nl
        ++ js "          <td>" ++ det ++ js "</td>" ++ nl
        ++ js "        </tr>" ++ nl
        ++ js "      ").

Definition displayResults (result : JSValue) : M Page unit :=
  p ← get_state;
  match console_results p with
  | None => mret tt
  | Some resultsSection =>
      (* Update risk badge *)
      match badge_className resultsSection with
      | Some _ =>
          level ← lift (get_field result riskLevel);
          cls ← lift (riskBadgeClass level);
          write BadgeClassName cls;;
          label ← lift (formatRiskLevel level);
          text ← lift (to_text label);
          write BadgeText text
      | None => mret tt
      end;;
      (* Update summary *)
      match summary_textContent resultsSection with
      | Some _ =>
          s ← lift (get_field result summary);
          text ← lift (to_text s);
          write SummaryText text
      | None => mret tt
      end;;
      (* Update risk indicator *)
      match riskValue_textContent resultsSection,
            riskFill_width resultsSection,
            riskDescription_textContent resultsSection with
      | Some _, Some _, Some _ =>
          level ← lift (get_field result riskLevel);
          label ← lift (formatRiskLevel level);
          text ← lift (to_text label);
          write RiskValueText text;;
          width ← lift (riskWidth level);
          write RiskFillWidth width;;
          attr ← lift (ToString level);
          write RiskFillDataRisk attr;;
          description ← lift (getRiskDescription level);
          text ← lift (to_text description);
          write RiskDescriptionText text
      | _, _, _ => mret tt
      end;;
      (* Update evidence table *)
      match tbody_innerHTML resultsSection with
      | Some _ =>
          ev ← lift (get_field result evidence);
          if truthy ev then
            html ← lift (map_join evidenceRow ev);
            write TbodyHTML html
          else mret tt
      | None => mret tt
      end;;
      (* Update recommendations *)
      match result_list_innerHTML resultsSection with
      | Some _ =>
          recs ← lift (get_field result recommendations);
          if truthy recs then
            html ← lift (map_join recommendationItem recs);
            write ResultListHTML html
          else mret tt
      | None => mret tt
      end;;
      (* Show results, scroll to results *)
      write StyleDisplay (js "block");;
      emit ScrollIntoView
  end.

Definition handleAnalyze : M Page unit :=
  p ← get_state;
  match threat_input p with
  | None => throw TypeError
  | Some input =>
      let value := trim (value input) in
      if negb (truthy (JStr value)) then
        showError (js "Please enter a URL, message, or phone number")
      else
        (* Show loading state *)
        setLoadingState true;;
        try_finally
          (try_catch
             (result ← analyzeInput value;
              displayResults result)
             (fun err =>
                showError (js "Analysis failed. Please try again.");;
                emit (ConsoleError (js "Analysis error:") err)))
          (setLoadingState false)
  end.

(** [handleImageUpload] builds a file input and opens the picker ... *)
Definition handleImageUpload : M Page unit :=
  emit FilePicker.

(** ... and this is its [onchange] handler; [file] is [e.target.files[0]]. *)
Definition onchange (file : option File) : M Page unit :=
  match file with
  | None => mret tt
  | Some file =>
      setLoadingState true;;
      try_finally
        (try_catch
           (result ← analyzeImage file;
            displayResults result)
           (fun err =>
              showError (js "Image analysis failed. Please try again.");;
              emit (ConsoleError (js "Image analysis error:") err)))
        (setLoadingState false)
  end.

(** The listeners that [setupEventListeners] installs: a click on the
    analyze button, a click on the upload button, and a key pressed in the
    input, with [e.key], [e.metaKey] and [e.ctrlKey]. *)
Definition onclick_analyze : M Page unit := detached handleAnalyze.

Definition onclick_upload : M Page unit := handleImageUpload.

Definition onkeydown (key : jsstring) (metaKey ctrlKey : bool) : M Page unit :=
  if bool_decide (key = js "Enter") && (metaKey || ctrlKey)
  then detached handleAnalyze
  else mret tt.

End WithEngine.
End SentinelApp.

(* ===================================================================== *)
(** ** The React front end: [AnalysisPage] *)
(* ===================================================================== *)

Module AnalysisPage.

(** The four [useState] cells; [None] is an [error] of [null]. *)
Record State : Type := {
  input : jsstring;
  loading : bool;
  result : JSValue;
  error : option jsstring
}.

Definition initial : State :=
  {| input := []; loading := false; result := JNull; error := None |}.

Definition setLoading (b : bool) : M State unit :=
  modify (fun s => {| input := input s; loading := b; result := result s;
                      error := error s |}).

Definition setResult (data : JSValue) : M State unit :=
  modify (fun s => {| input := input s; loading := loading s; result := data;
                      error := error s |}).

Definition setError (e : option jsstring) : M State unit :=
  modify (fun s => {| input := input s; loading := loading s;
                      result := result s; error := e |}).

Definition handleAnalyze : M State unit :=
  s ← get_state;
  if negb (truthy (JStr (trim (input s)))) then
    setError (Some (js "Please enter a URL, message, or phone number"))
  else
    setLoading true;;
    setError None;;
    try_finally
      (try_catch
         (response ← fetch
            {| url := js "http://localhost:5000/api/analyze";
               method := js "POST";
               headers := [(js "Content-Type", js "application/json")];
               body := JsonBody (JObj (object [("input", JStr (trim (input s)))])) |};
          (if negb response.1 then throw (Error (js "Analysis failed"))
           else mret tt);;
          data ← lift response.2;
          setResult data)
         (fun err =>
            setError (Some (js "Analysis failed. Please try again."));;
            emit (ConsoleError (js "Analysis error:") err)))
      (setLoading false).

(** [file] is [event.target.files[0]]. *)
Definition handleImageUpload (file : option File) : M State unit :=
  match file with
  | None => mret tt
  | Some file =>
      setLoading true;;
      setError None;;
      try_finally
        (try_catch
           (response ← fetch
              {| url := js "http://localhost:5000/api/analyze/image";
                 method := js "POST";
                 headers := [];
                 body := FormData [(js "image", file)] |};
            (if negb response.1 then throw (Error (js "Image analysis failed"))
             else mret tt);;
            data ← lift response.2;
            setResult data)
           (fun err =>
              setError (Some (js "Image analysis failed. Please try again."));;
              emit (ConsoleError (js "Image analysis error:") err)))
        (setLoading false)
  end.

Definition getRiskBadgeClass (level : JSValue) : Outcome jsstring :=
  l ← ToString level; mret (js "badge badge-" ++ l).

Definition getRiskPercentage (level : JSValue) : Outcome JSValue :=
  let percentages := object
    [ ("low", JNum 25);
      ("medium", JNum 60);
      ("high", JNum 85);
      ("critical", JNum 100) ] in
  found ← index percentages level;
  mret (js_or found (JNum 50)).

Definition formatRiskLevel (level : JSValue) : Outcome JSValue :=
  let levels := object
    [ ("low", JStr (js "Low Risk"));
      ("medium", JStr (js "Medium Risk"));
      ("high", JStr (js "High Risk"));
      ("critical", JStr (js "Critical Risk")) ] in
  found ← index levels level;
  mret (js_or found level).

Definition getRiskDescription (level : JSValue) : Outcome JSValue :=
  let descriptions := object
    [ ("low", JStr (js "Minimal risk indicators detected. Appears legitimate."));
      ("medium", JStr (js "Multiple suspicious indicators detected. Proceed with caution."));
      ("high", JStr (js "High likelihood of malicious intent. Avoid interaction."));
      ("critical", JStr (js "Confirmed threat. Do not interact under any circumstances.")) ] in
  found ← index descriptions level;
  mret (js_or found (JStr (js "Risk assessment in progress."))).

(** The width of the indicator bar: [`${getRiskPercentage(level)}%`]. *)
Definition riskWidth (level : JSValue) : Outcome jsstring :=
  p ← getRiskPercentage level; l ← ToString p; mret (l ++ js "%").

(** [status === 'clean'] *)
Definition is_clean (status : JSValue) : bool :=
  match status with
  | JStr s => bool_decide (s = js "clean")
  | _ => false
  end.

(** The class of the status badge of an evidence row:
    [`badge badge-${item.status === 'clean' ? 'low' : 'medium'}`]. *)
Definition statusBadgeClass (status : JSValue) : jsstring :=
  js "badge badge-" ++ (if is_clean status then js "low" else js "medium").

(** *** What the component renders of a result *)

(** A row of the evidence table: the children of its cells and the class
    of its badge. *)
Record EvidenceRow : Type := {
  row_source : JSValue;
  row_badge_className : jsstring;
  row_status : JSValue;
  row_details : JSValue
}.

(** The results section: the props and children the JSX computes.  A
    section guarded by [a && b && (...)] is [inl v] when the guard stops
    at the value [v], which is then what React is handed. *)
Record ResultsView : Type := {
  badge_className : jsstring;
  badge_children : JSValue;
  summary_children : JSValue;
  riskValue_children : JSValue;
  riskFill_width : jsstring;
  riskFill_data_risk : JSValue;
  riskDescription_children : JSValue;
  evidence_section : JSValue + list EvidenceRow;
  recommendations_section : JSValue + list JSValue
}.

(** [v.length] for a [v] that is neither [null] nor [undefined]. *)
Definition length_of (v : JSValue) : JSValue :=
  match v with
  | JArr items => JNum (Z.of_nat (length items))
  | JStr s => JNum (Z.of_nat (length s))
  | JObj props => get props (js "length")
  | JFunction _ arity => JNum arity
  | JUndefined | JNull | JBool _ | JNum _ | JObjectPrototype => JUndefined
  end.

(** [v.map(f)]: only an array has [map]. *)
Definition map_array {B} (f : JSValue -> Outcome B) (v : JSValue)
  : Outcome (list B) :=
  match v with
  | JArr items => map_outcome f items
  | JUndefined | JNull | JBool _ | JNum _ | JStr _ | JObj _ | JFunction _ _
  | JObjectPrototype => Throw TypeError
  end.

Definition evidenceRow (item : JSValue) : Outcome EvidenceRow :=
  src ← get_field item source;
  st ← get_field item status;
  det ← get_field item details;
  mret {| row_source := src;
          row_badge_className := statusBadgeClass st;
          row_status := st;
          row_details := det |}.

Section WithEngine.

(** Whether the Number a string converts to (StringToNumber) is above 0. *)
Variable string_is_positive : jsstring -> bool.

(** [v > 0] *)
Definition gt_zero (v : JSValue) : Outcome bool :=
  match v with
  | JUndefined | JNull => Return false
  | JBool b => Return b
  | JNum z => Return (0 <? z)
  | JStr s => Return (string_is_positive s)
  | JArr _ => s ← ToString v; mret (string_is_positive s)
  | JObj _ | JFunction _ _ | JObjectPrototype => _ ← ToString v; mret false
  end.

(** [arr && arr.length > 0 && arr.map(row)] *)
Definition guarded_rows {B} (row : JSValue -> Outcome B) (arr : JSValue)
  : Outcome (JSValue + list B) :=
  if negb (truthy arr) then mret (inl arr)
  else
    positive ← gt_zero (length_of arr);
    if negb positive then mret (inl (JBool false))
    else rows ← map_array row arr; mret (inr rows).

(** [{result && (...)}] *)
Definition render (s : State) : Outcome (JSValue + ResultsView) :=
  if negb (truthy (result s)) then mret (inl (result s))
  else
    level ← get_field (result s) riskLevel;
    cls ← getRiskBadgeClass level;
    label ← formatRiskLevel level;
    sum ← get_field (result s) summary;
    width ← riskWidth level;
    description ← getRiskDescription level;
    ev ← get_field (result s) evidence;
    table ← guarded_rows evidenceRow ev;
    recs ← get_field (result s) recommendations;
    items ← guarded_rows Return recs;
    mret (inr {| badge_className := cls;
                 badge_children := label;
                 summary_children := sum;
                 riskValue_children := label;
                 riskFill_width := width;
                 riskFill_data_risk := level;
                 riskDescription_children := description;
                 evidence_section := table;
                 recommendations_section := items |}).

End WithEngine.
End AnalysisPage.

(* ===================================================================== *)
(** ** The React front end: [EducationPage] *)
(* ===================================================================== *)

Module EducationPage.

(** A Number that holds an index: an integer, or NaN. *)
Inductive Number : Type :=
| Int (z : Z)
| NaN.

(** [a + 1] *)
Definition succ (a : Number) : Number :=
  match a with
  | Int z => Int (z + 1)
  | NaN => NaN
  end.

(** [a % n] for an array length [n]: the remainder has the sign of the
    dividend, and a zero divisor gives NaN. *)
Definition rem (a : Number) (n : nat) : Number :=
  match a with
  | Int z => if decide (n = 0%nat) then NaN else Int (Z.rem z (Z.of_nat n))
  | NaN => NaN
  end.

(** The [useState] cells, with [questions] the array [fetchQuestions]
    stored; [None] is a [feedback] of [null]. *)
Record State : Type := {
  questions : list JSValue;
  currentIndex : Number;
  answer : jsstring;
  feedback : option JSValue;
  loading : bool
}.

Definition initial : State :=
  {| questions := []; currentIndex := Int 0; answer := []; feedback := None;
     loading := false |}.

(** [setQuestions(data.questions || [])] with an array in [data.questions]. *)
Definition setQuestions (qs : list JSValue) (s : State) : State :=
  {| questions := qs; currentIndex := currentIndex s; answer := answer s;
     feedback := feedback s; loading := loading s |}.

Definition handleNext (s : State) : State :=
  {| questions := questions s;
     currentIndex := rem (succ (currentIndex s)) (length (questions s));
     answer := [];
     feedback := None;
     loading := loading s |}.

(** [questions[currentIndex]], the question on display. *)
Definition displayed (s : State) : option JSValue :=
  match currentIndex s with
  | Int z => if decide (0 <= z) then questions s !! Z.to_nat z else None
  | NaN => None
  end.

(** The render guard: with no questions the page shows only the loading
    text, and the button is there once feedback has come. *)
Definition next_button_shown (s : State) : bool :=
  negb (bool_decide (length (questions s) = 0%nat))
  && match feedback s with
     | Some v => truthy v
     | None => false
     end.

(** A click on "Next Question", where there is such a button. *)
Definition click_next (s : State) : State :=
  if next_button_shown s then handleNext s else s.

Definition setLoading (b : bool) : M State unit :=
  modify (fun s => {| questions := questions s; currentIndex := currentIndex s;
                      answer := answer s; feedback := feedback s;
                      loading := b |}).

Definition setFeedback (v : JSValue) : M State unit :=
  modify (fun s => {| questions := questions s; currentIndex := currentIndex s;
                      answer := answer s;
                      feedback := match v with JNull => None | _ => Some v end;
                      loading := loading s |}).

(** [data.feedback]; the name is no property of a string, a number, a
    boolean or an array, nor of [Object.prototype]. *)
Definition get_feedback (data : JSValue) : Outcome JSValue :=
  match data with
  | JUndefined | JNull => Throw TypeError
  | JObj props => Return (get props (js "feedback"))
  | JBool _ | JNum _ | JStr _ | JArr _ | JFunction _ _ | JObjectPrototype =>
      Return JUndefined
  end.

Definition handleSubmit : M State unit :=
  s ← get_state;
  if negb (truthy (JStr (trim (answer s)))) then mret tt
  else
    setLoading true;;
    try_finally
      (try_catch
         (response ← fetch
            {| url := js "http://localhost:5000/api/education/answer";
               method := js "POST";
               headers := [(js "Content-Type", js "application/json")];
               body := JsonBody (JObj (object
                         [("question", default JUndefined (displayed s));
                          ("answer", JStr (trim (answer s)))])) |};
          data ← lift response.2;
          fb ← lift (get_feedback data);
          setFeedback fb)
         (fun err =>
            emit (ConsoleError (js "Failed to check answer:") err);;
            setFeedback (JStr (js "Failed to check answer. Please try again."))))
      (setLoading false).

(** What the two buttons of the question show: the submit button is there
    while there is no feedback, and it is disabled while loading or on a
    blank answer. *)
Definition submit_button_enabled (s : State) : bool :=
  negb (bool_decide (length (questions s) = 0%nat))
  && negb match feedback s with
          | Some v => truthy v
          | None => false
          end
  && negb (loading s || negb (truthy (JStr (trim (answer s))))).

End EducationPage.

(* ===================================================================== *)
(** ** The Risk Aggregator (section 4.2 of the specification) *)
(* ===================================================================== *)

Module Aggregator.

(** Modelled from the spec: the status tag of an Evidence item (section 3);
    the back end that produces Evidence is not among the sources. *)
Inductive StatusTag : Type := Clean | Suspicious | Malicious | Inconclusive.

#[global] Instance StatusTag_eq_dec : EqDecision StatusTag.
Proof. solve_decision. Defined.

(** Modelled from the spec: Evidence (section 3). *)
Record Evidence : Type := {
  source_id : string;
  score : Q;                 (* 0..100, higher is more malicious *)
  confidence : Q;            (* 0..100, declared by the source *)
  weight : Q;                (* reliability of the source *)
  detail : string;
  status_tag : StatusTag
}.

(** Modelled from the spec: RiskVerdict (section 3). *)
Record RiskVerdict : Type := {
  risk_level : RiskLevel;
  verdict_confidence : Q;
  verdict_summary : string;
  reasoning : list string;
  evidence_consulted : list Evidence;
  advice : list string;          (* the recommendations *)
  uncertainties : list string
}.

(** What the specification leaves to the implementer: the disagreement
    penalty (proportional to the standard deviation of the scores), the
    threshold above which it is reported, and the wording. *)
Record Policy : Type := {
  spread_penalty : list Q -> Q;
  penalty_threshold : Q;
  summarize : RiskLevel -> string;
  describe : Evidence -> string;
  combination_rule : string;
  recommend : RiskLevel -> option string -> list string
}.

Definition no_signal_note : string := "no independent signal was available".
Definition single_source_note : string :=
  "fewer than two independent sources responded".
Definition disagreement_note : string := "the sources disagree".
Definition clamp_note : string := "an out-of-range value was clamped".

Definition clamp (q : Q) : Q :=
  if Qle_bool q 0 then 0%Q else if Qle_bool 100 q then 100%Q else q.

Definition in_range (q : Q) : bool := Qle_bool 0 q && Qle_bool q 100.

Definition clamp_evidence (e : Evidence) : Evidence :=
  {| source_id := source_id e;
     score := clamp (score e);
     confidence := clamp (confidence e);
     weight := weight e;
     detail := detail e;
     status_tag := status_tag e |}.

Definition Qsum (l : list Q) : Q := foldr Qplus 0%Q l.

(** [reliability weight × (source confidence / 100)] *)
Definition share (e : Evidence) : Q := (weight e * (confidence e / 100))%Q.

(** [reliability weight × confidence], the key of the reasoning order. *)
Definition rank (e : Evidence) : Q := (weight e * confidence e)%Q.

Fixpoint insert_desc (e : Evidence) (l : list Evidence) : list Evidence :=
  match l with
  | [] => [e]
  | x :: rest =>
      if Qle_bool (rank e) (rank x) then x :: insert_desc e rest
      else e :: l
  end.

Definition sort_desc (l : list Evidence) : list Evidence :=
  foldr insert_desc [] l.

(** Step 3: the fixed thresholds. *)
Definition level_of (malice : Q) : RiskLevel :=
  if negb (Qle_bool 30 malice) then Low
  else if negb (Qle_bool 60 malice) then Medium
  else if negb (Qle_bool 85 malice) then High
  else Critical.

(** The evidence of the highest reliability weight, the first of them. *)
Definition heaviest (l : list Evidence) : option Evidence :=
  foldr (fun e best =>
           match best with
           | Some b => if Qle_bool (weight b) (weight e) then Some e else Some b
           | None => Some e
           end) None l.

(** Whether the evidence spans more than one status tag. *)
Definition conflicting (l : list Evidence) : bool :=
  match l with
  | [] => false
  | e :: rest =>
      negb (forallb (fun x => bool_decide (status_tag x = status_tag e)) rest)
  end.

Section WithPolicy.

Variable P : Policy.

(** Modelled from the spec: step 1 of section 4.2, the verdict for no
    evidence. *)
Definition no_evidence : RiskVerdict :=
  {| risk_level := Medium;
     verdict_confidence := 0;
     verdict_summary := summarize P Medium;
     reasoning := [];
     evidence_consulted := [];
     advice := recommend P Medium None;
     uncertainties := [no_signal_note] |}.

(** Modelled from the spec: [Aggregate] of section 4.2, steps 1 to 7; the
    code of the Risk Aggregator is not among the sources. *)
Definition Aggregate (evidence : list Evidence) : RiskVerdict :=
  match evidence with
  | [] => no_evidence
  | _ :: _ =>
      let ev := clamp_evidence <$> evidence in
      let total := Qsum (share <$> ev) in
      if Qeq_bool total 0 then no_evidence
      else
        let malice := (Qsum ((fun e => score e * share e) <$> ev) / total)%Q in
        let level := level_of malice in
        let penalty := spread_penalty P (score <$> ev) in
        let conf :=
          clamp (Qsum ((fun e => confidence e * share e) <$> ev) / total
                 - penalty)%Q in
        let ordered := sort_desc ev in
        {| risk_level := level;
           verdict_confidence := conf;
           verdict_summary := summarize P level;
           reasoning :=
             (describe P <$> ordered)
             ++ (if conflicting ev then [combination_rule P] else []);
           evidence_consulted := ev;
           advice := recommend P level (detail <$> heaviest ev);
           uncertainties :=
             (if bool_decide (length ev < 2)%nat then [single_source_note]
              else [])
             ++ (if negb (Qle_bool penalty (penalty_threshold P))
                 then [disagreement_note] else [])
             ++ (if forallb (fun e => in_range (score e)
                                      && in_range (confidence e)) evidence
                 then [] else [clamp_note]) |}
  end.

End WithPolicy.
End Aggregator.

(* ===================================================================== *)
(** ** The Conversation Store (section 4.3 of the specification) *)
(* ===================================================================== *)

Module ConversationStore.

(** What an exchange keeps next to the utterance. *)
Inductive VerdictOrReply : Type :=
| Verdict (v : Aggregator.RiskVerdict)
| Reply (text : string).

Definition Exchange : Type := string * VerdictOrReply.

(** Modelled from the spec: ConversationSession (section 3), with its
    time in seconds.  The identity is the key under
    which the store keeps it; the detected language of the data model
    plays no part in the three operations and is left out. *)
Record ConversationSession : Type := {
  history : list Exchange;
  last_activity : Z
}.

Definition max_history : nat := 5.
Definition idle_limit : Z := 30 * 60.

(** The last [max_history] entries: the oldest go first. *)
Definition bounded (h : list Exchange) : list Exchange :=
  drop (length h - max_history) h.

(** Modelled from the spec: [Upsert] of section 4.3 at the time [now]; the
    code of the Conversation Store is not among the sources. *)
Definition Upsert (now : Z) (identity utterance : string) (r : VerdictOrReply)
    (store : gmap string ConversationSession) : gmap string ConversationSession :=
  match store !! identity with
  | None =>
      <[identity := {| history := [(utterance, r)]; last_activity := now |}]> store
  | Some s =>
      <[identity := {| history := bounded (history s ++ [(utterance, r)]);
                       last_activity := now |}]> store
  end.

Definition expired (now : Z) (s : ConversationSession) : bool :=
  bool_decide (idle_limit < now - last_activity s).

(** Modelled from the spec: [Get] of section 4.3, with its lazy expiry. *)
Definition Get (now : Z) (identity : string)
    (store : gmap string ConversationSession) : option ConversationSession :=
  match store !! identity with
  | Some s => if expired now s then None else Some s
  | None => None
  end.

(** Modelled from the spec: [Cleanup] of section 4.3. *)
Definition Cleanup (now : Z) (store : gmap string ConversationSession)
  : gmap string ConversationSession :=
  filter (fun kv => expired now kv.2 = false) store.

(** One call of [Upsert]. *)
Record Call : Type := {
  call_time : Z;
  call_identity : string;
  call_utterance : string;
  call_reply : VerdictOrReply
}.

Definition apply_call (store : gmap string ConversationSession) (c : Call)
  : gmap string ConversationSession :=
  Upsert (call_time c) (call_identity c) (call_utterance c) (call_reply c) store.

(** The store after a sequence of calls, the first call first. *)
Definition run (calls : list Call) (store : gmap string ConversationSession)
  : gmap string ConversationSession :=
  foldl apply_call store calls.

(** The history the store holds for an identity; none is an empty one. *)
Definition history_of (store : gmap string ConversationSession)
    (identity : string) : list Exchange :=
  match store !! identity with
  | Some s => history s
  | None => []
  end.

(** The exchanges of one identity among the calls, in order. *)
Definition exchanges_of (identity : string) (calls : list Call) : list Exchange :=
  (fun c => (call_utterance c, call_reply c))
    <$> filter (fun c => call_identity c = identity) calls.

End ConversationStore.

(* ===================================================================== *)
(** ** Sample data *)
(* ===================================================================== *)

Module Samples.

(** The response of [POST /api/analyze/image] as the README documents it. *)
Definition documented_response : JSValue :=
  JObj (object
    [ ("type", JStr (js "image"));
      ("extracted_text", JStr (js "Full text from image..."));
      ("risk_level", JStr (js "high"));
      ("confidence", JNum 88);
      ("summary", JStr (js "Phishing attempt detected"));
      ("reasoning", JArr [JStr (js "Typosquatting domain");
                          JStr (js "Urgency tactics")]);
      ("recommendations", JArr [JStr (js "Do not click links");
                                JStr (js "Report to authorities")]) ]).

(** A verdict whose one piece of evidence is malicious. *)
Definition malicious_result : JSValue :=
  JObj (object
    [ ("riskLevel", JStr (js "high"));
      ("summary", JStr (js "Known malware host"));
      ("evidence",
       JArr [JObj (object
               [ ("source", JStr (js "VirusTotal"));
                 ("status", JStr (js "malicious"));
                 ("details", JStr (js "12/70 engines flagged")) ])]) ]).

(** A results section with every element the class looks up, still empty. *)
Definition empty_results : SentinelApp.ResultsEl :=
  {| SentinelApp.badge_className := Some (js "badge");
     SentinelApp.badge_textContent := [];
     SentinelApp.summary_textContent := Some [];
     SentinelApp.riskValue_textContent := Some [];
     SentinelApp.riskFill_width := Some [];
     SentinelApp.riskFill_data_risk := [];
     SentinelApp.riskDescription_textContent := Some [];
     SentinelApp.tbody_innerHTML := Some [];
     SentinelApp.result_list_innerHTML := Some [];
     SentinelApp.style_display := js "none" |}.

Definition page_with (text : jsstring) : SentinelApp.Page :=
  {| SentinelApp.threat_input :=
       Some {| SentinelApp.value := text; SentinelApp.input_disabled := false |};
     SentinelApp.analyze_btn :=
       Some {| SentinelApp.btn_disabled := false;
               SentinelApp.btn_text := js "Analyze" |};
     SentinelApp.console_results := Some empty_results |}.

(** A world in which every request gets the answer [o]. *)
Definition world {S} (s : S) (o : FetchOutcome) : World S :=
  {| state := s; events := []; network := fun _ => o |}.

Definition typed (text : jsstring) : AnalysisPage.State :=
  {| AnalysisPage.input := text; AnalysisPage.loading := false;
     AnalysisPage.result := JNull; AnalysisPage.error := None |}.

(** ASCII letters only: enough to run the examples. *)
Definition ascii_upper (s : jsstring) : jsstring :=
  (fun c => if ((97 <=? c) && (c <=? 122))%N then (c - 32)%N else c) <$> s.

End Samples.

(* ===================================================================== *)
(** ** Shapes of a verdict, and what a handler leaves alone *)
(* ===================================================================== *)

Module Shape.

(** A value that is no object: absent, [null], a boolean, a number or a
    string. *)
Definition primitive (v : JSValue) : bool :=
  match v with
  | JUndefined | JNull | JBool _ | JNum _ | JStr _ => true
  | JArr _ | JObj _ | JFunction _ _ | JObjectPrototype => false
  end.

Definition is_string (v : JSValue) : bool :=
  match v with
  | JStr _ => true
  | _ => false
  end.

(** An evidence item [{source, status, details}] with a string status. *)
Definition evidence_item (item : JSValue) : bool :=
  match item with
  | JObj p =>
      primitive (get p (field_name source))
      && is_string (get p (field_name status))
      && primitive (get p (field_name details))
  | _ => false
  end.

(** An array of items, or nothing (a primitive that is falsy). *)
Definition list_of (ok : JSValue -> bool) (v : JSValue) : bool :=
  match v with
  | JArr items => forallb ok items
  | _ => primitive v && negb (truthy v)
  end.

(** A verdict as the front ends expect it: an object with a primitive
    [riskLevel] and [summary], and lists (or nothing) under [evidence] and
    [recommendations]. *)
Definition verdict (result : JSValue) : bool :=
  match result with
  | JObj p =>
      primitive (get p (field_name riskLevel))
      && primitive (get p (field_name summary))
      && list_of evidence_item (get p (field_name evidence))
      && list_of primitive (get p (field_name recommendations))
  | _ => false
  end.

End Shape.

(** [w'] is [w] but for the results section, with the events [evs] added. *)
Definition grows (evs : list Event) (w w' : World SentinelApp.Page) : Prop :=
  SentinelApp.threat_input (state w') = SentinelApp.threat_input (state w)
  /\ SentinelApp.analyze_btn (state w') = SentinelApp.analyze_btn (state w)
  /\ network w' = network w
  /\ events w' = events w ++ evs.

(** A computation that touches the results section only. *)
Definition silent {A} (m : M SentinelApp.Page A) : Prop :=
  forall w, grows [] w (m w).2.

(** One that, besides, may scroll once, at its end. *)
Definition scrolls_once {A} (m : M SentinelApp.Page A) : Prop :=
  forall w, grows [] w (m w).2 \/ grows [ScrollIntoView] w (m w).2.



(** Whether the results section has any of the elements that
    [displayResults] fills in: the badge, the summary, the three parts of
    the risk indicator together, the table body or the list. *)
Definition has_target (r : SentinelApp.ResultsEl) : bool :=
  bool_decide (is_Some (SentinelApp.badge_className r))
  || bool_decide (is_Some (SentinelApp.summary_textContent r))
  || (bool_decide (is_Some (SentinelApp.riskValue_textContent r))
      && bool_decide (is_Some (SentinelApp.riskFill_width r))
      && bool_decide (is_Some (SentinelApp.riskDescription_textContent r)))
  || bool_decide (is_Some (SentinelApp.tbody_innerHTML r))
  || bool_decide (is_Some (SentinelApp.result_list_innerHTML r)).

(** The statuses the [badges] table of [getStatusBadge] knows. *)
Definition status_keys : list jsstring :=
  [js "clean"; js "suspicious"; js "malicious"; js "recent"; js "complete"].

(** A computation that throws from wherever it starts. *)
Definition always_throws {A} (m : M SentinelApp.Page A) : Prop :=
  forall w, exists e, (m w).1 = Throw e.

(** A value with a string conversion that does not throw. *)
Definition stringable (v : JSValue) : Prop :=
  exists s, ToString v = Return s.

(** The request that [analyzeInput] sends for an input. *)
Definition analyze_request (endpoint : jsstring) (text : jsstring) : Request :=
  {| url := endpoint;
     method := js "POST";
     headers := [(js "Content-Type", js "application/json")];
     body := JsonBody (JObj (object [("input", JStr text)])) |}.

(** The request that carries an image. *)
Definition image_request (endpoint : jsstring) (file : File) : Request :=
  {| url := endpoint;
     method := js "POST";
     headers := [];
     body := FormData [(js "image", file)] |}.

(** What a guarded request of the React page comes to: the data it sets,
    or the exception its [catch] gets. *)
Definition settle (failure : string) (o : FetchOutcome) : Outcome JSValue :=
  match o with
  | Rejects e => Throw e
  | Responds false _ => Throw (Error (js failure))
  | Responds true json => json
  end.

(** The request that [handleSubmit] sends from a state of the Education
    page. *)
Definition answer_request (s : EducationPage.State) : Request :=
  {| url := js "http://localhost:5000/api/education/answer";
     method := js "POST";
     headers := [(js "Content-Type", js "application/json")];
     body := JsonBody (JObj (object
               [("question", default JUndefined (EducationPage.displayed s));
                ("answer", JStr (trim (EducationPage.answer s)))])) |}.

(** A check of an answer that fails: the request is rejected, the body
    does not parse, or the body is [null]. *)
Definition check_fails (o : FetchOutcome) : Prop :=
  match o with
  | Rejects _ | Responds _ (Throw _) | Responds _ (Return JNull) => True
  | Responds _ (Return _) => False
  end.

(** The names an object literal answers to without having them itself. *)
Definition inherited_names : list jsstring :=
  js "__proto__" :: (map_to_list Object_prototype).*1.

(** The four strings of the risk levels. *)
Definition level_strings : list jsstring :=
  level_string <$> [Low; Medium; High; Critical].

(** A request-level failure: the request is rejected, or the response
    comes with a status that is not ok. *)
Definition request_fails (o : FetchOutcome) : Prop :=
  match o with
  | Rejects _ => True
  | Responds ok _ => ok = false
  end.

(* ===================================================================== *)
(** ** Properties of the language operations *)
(* ===================================================================== *)

Lemma trim_start_blank (s : jsstring) :
  forallb is_whitespace s = true -> trim_start s = [].
Proof.
  induction s as [|c s IH]; simpl; [done|].
  intros [Hc Hs]%andb_prop. rewrite Hc. auto.
Qed.

Lemma trim_blank (s : jsstring) :
  forallb is_whitespace s = true -> trim s = [].
Proof.
  intros H. unfold trim. by rewrite (trim_start_blank s H).
Qed.

(** A string outside the own keys of an object literal and outside what
    is inherited is not a property of it. *)
Lemma get_absent (own : gmap jsstring JSValue) (k : jsstring) :
  own !! k = None -> k ∉ inherited_names -> get own k = JUndefined.
Proof.
  intros Hown Hk. unfold get. rewrite Hown.
  apply not_elem_of_cons in Hk as [Hp Hk].
  rewrite decide_False by done.
  destruct (Object_prototype !! k) as [v|] eqn:E; [|done].
  exfalso. apply Hk. apply list_elem_of_fmap. exists (k, v). split; [done|].
  by apply elem_of_map_to_list.
Qed.

Lemma object_lookup_absent (props : list (string * JSValue)) (k : jsstring) :
  k ∉ js <$> props.*1 -> object props !! k = None.
Proof.
  intros Hk. unfold object. apply not_elem_of_list_to_map_1.
  by rewrite <- list_fmap_compose, (list_fmap_ext _ (js ∘ fst) props) , list_fmap_compose
    by (by intros ? []).
Qed.

(* ===================================================================== *)
(** ** The risk-level table of the rendering boundary *)
(* ===================================================================== *)

(** C2: each of the four risk levels maps, through the fixed table of the
    rendering helpers, to its label ('Low Risk', 'Medium Risk', 'High
    Risk', 'Critical Risk') and to its percentage (25, 60, 85, 100); the
    level is the only input, and both front ends hold the same table. *)
Theorem risk_level_table (l : RiskLevel) :
  let level := JStr (level_string l) in
  let label := match l with
               | Low => js "Low Risk"
               | Medium => js "Medium Risk"
               | High => js "High Risk"
               | Critical => js "Critical Risk"
               end in
  let percentage := match l with
                    | Low => 25
                    | Medium => 60
                    | High => 85
                    | Critical => 100
                    end in
  SentinelApp.formatRiskLevel level = Return (JStr label)
  /\ SentinelApp.getRiskPercentage level = Return (JNum percentage)
  /\ AnalysisPage.formatRiskLevel level = Return (JStr label)
  /\ AnalysisPage.getRiskPercentage level = Return (JNum percentage).
Proof. destruct l; vm_compute; repeat split. Qed.

(** C5: the percentage grows strictly with the risk level, in the order
    low < medium < high < critical, in both front ends. *)
Theorem percentage_strictly_increasing (l1 l2 : RiskLevel) :
  (level_rank l1 < level_rank l2)%nat ->
  exists p1 p2 : Z,
    SentinelApp.getRiskPercentage (JStr (level_string l1)) = Return (JNum p1)
    /\ SentinelApp.getRiskPercentage (JStr (level_string l2)) = Return (JNum p2)
    /\ AnalysisPage.getRiskPercentage (JStr (level_string l1)) = Return (JNum p1)
    /\ AnalysisPage.getRiskPercentage (JStr (level_string l2)) = Return (JNum p2)
    /\ p1 < p2.
Proof.
  intros Hlt.
  destruct l1, l2; simpl in Hlt; try lia;
    (eexists _, _; do 4 (split; [vm_compute; reflexivity|]); lia).
Qed.

Lemma percentage_strictly_increasing_witness :
  (level_rank Medium < level_rank Critical)%nat
  /\ exists p1 p2 : Z,
       SentinelApp.getRiskPercentage (JStr (level_string Medium)) = Return (JNum p1)
       /\ SentinelApp.getRiskPercentage (JStr (level_string Critical)) = Return (JNum p2)
       /\ AnalysisPage.getRiskPercentage (JStr (level_string Medium)) = Return (JNum p1)
       /\ AnalysisPage.getRiskPercentage (JStr (level_string Critical)) = Return (JNum p2)
       /\ p1 < p2.
Proof.
  split; [simpl; lia|].
  apply (percentage_strictly_increasing Medium Critical). simpl; lia.
Defined.

(** The fallback of the helpers does apply to every string that is neither
    a level nor a name an object literal inherits. *)
Lemma fallback_outside_inherited (s : jsstring) :
  s ∉ level_strings -> s ∉ inherited_names ->
  SentinelApp.formatRiskLevel (JStr s) = Return (JStr s)
  /\ SentinelApp.getRiskPercentage (JStr s) = Return (JNum 50)
  /\ SentinelApp.getRiskDescription (JStr s)
     = Return (JStr (js "Risk assessment in progress."))
  /\ AnalysisPage.formatRiskLevel (JStr s) = Return (JStr s)
  /\ AnalysisPage.getRiskPercentage (JStr s) = Return (JNum 50)
  /\ AnalysisPage.getRiskDescription (JStr s)
     = Return (JStr (js "Risk assessment in progress.")).
Proof.
  intros Hl Hi.
  assert (forall v1 v2 v3 v4 : JSValue,
            get (object [("low", v1); ("medium", v2); ("high", v3);
                         ("critical", v4)]) s = JUndefined) as Hget.
  { intros. apply get_absent; [|done]. by apply object_lookup_absent. }
  unfold SentinelApp.formatRiskLevel, SentinelApp.getRiskPercentage,
    SentinelApp.getRiskDescription, AnalysisPage.formatRiskLevel,
    AnalysisPage.getRiskPercentage, AnalysisPage.getRiskDescription, index.
  cbn [ToString mbind Outcome_bind bind_outcome mret Outcome_ret].
  rewrite !Hget. by destruct s.
Qed.

(** C9: the fallback of the three helpers is meant for every string that
    is not a level, but a name inherited from [Object.prototype] is found
    in the table: at 'constructor' each helper answers the function
    [Object] and not its fallback.  None of them throws on a string. *)
Theorem inherited_name_defeats_fallback :
  SentinelApp.formatRiskLevel (JStr (js "constructor"))
    = Return (JFunction (js "Object") 1)
  /\ SentinelApp.getRiskPercentage (JStr (js "constructor"))
    = Return (JFunction (js "Object") 1)
  /\ SentinelApp.getRiskDescription (JStr (js "constructor"))
    = Return (JFunction (js "Object") 1)
  /\ AnalysisPage.formatRiskLevel (JStr (js "constructor"))
    = Return (JFunction (js "Object") 1)
  /\ AnalysisPage.getRiskPercentage (JStr (js "constructor"))
    = Return (JFunction (js "Object") 1)
  /\ AnalysisPage.getRiskDescription (JStr (js "constructor"))
    = Return (JFunction (js "Object") 1)
  /\ (js "constructor" ∉ level_strings)
  /\ SentinelApp.riskWidth (JStr (js "constructor"))
    = Return (js "function Object() { [native code] }%").
Proof.
  repeat split; try (vm_compute; reflexivity).
  unfold level_strings. intros H.
  repeat (apply elem_of_cons in H as [H|H]; [by vm_compute in H|]).
  by apply elem_of_nil in H.
Qed.

(** And so it is for each of the inherited names: what the helpers answer
    there is a built-in, never the fallback. *)
Lemma inherited_names_defeat_fallback (s : jsstring) :
  s ∈ inherited_names ->
  SentinelApp.formatRiskLevel (JStr s) <> Return (JStr s)
  /\ SentinelApp.getRiskPercentage (JStr s) <> Return (JNum 50)
  /\ SentinelApp.getRiskDescription (JStr s)
     <> Return (JStr (js "Risk assessment in progress.")).
Proof.
  intros Hs.
  assert (forallb (fun k =>
            match SentinelApp.formatRiskLevel (JStr k),
                  SentinelApp.getRiskPercentage (JStr k),
                  SentinelApp.getRiskDescription (JStr k) with
            | Return (JFunction _ _ | JObjectPrototype),
              Return (JFunction _ _ | JObjectPrototype),
              Return (JFunction _ _ | JObjectPrototype) => true
            | _, _, _ => false
            end) inherited_names = true) as Hall by (vm_compute; reflexivity).
  rewrite forallb_forall in Hall.
  specialize (Hall s (proj1 (list_elem_of_In _ _) Hs)).
  destruct (SentinelApp.formatRiskLevel (JStr s)) as [[]|];
    destruct (SentinelApp.getRiskPercentage (JStr s)) as [[]|];
    destruct (SentinelApp.getRiskDescription (JStr s)) as [[]|];
    try discriminate Hall; repeat split; discriminate.
Qed.

(** On a string the three helpers always return. *)
Lemma helpers_total_on_strings (s : jsstring) :
  (exists v, SentinelApp.formatRiskLevel (JStr s) = Return v)
  /\ (exists v, SentinelApp.getRiskPercentage (JStr s) = Return v)
  /\ (exists v, SentinelApp.getRiskDescription (JStr s) = Return v)
  /\ (exists v, AnalysisPage.formatRiskLevel (JStr s) = Return v)
  /\ (exists v, AnalysisPage.getRiskPercentage (JStr s) = Return v)
  /\ (exists v, AnalysisPage.getRiskDescription (JStr s) = Return v).
Proof. repeat split; eexists; reflexivity. Qed.

(* ===================================================================== *)
(** ** What the front ends read of a verdict *)
(* ===================================================================== *)

(** A property named [risk_level] is none of the properties read. *)
Lemma get_field_ignores_risk_level (props : gmap jsstring JSValue)
    (v : JSValue) (f : Field) :
  get_field (JObj (<[js "risk_level" := v]> props)) f = get_field (JObj props) f.
Proof.
  unfold get_field, get. f_equal.
  rewrite lookup_insert_ne; [done|]. by destruct f.
Qed.

(** Neither front end looks at [risk_level]: adding it to a response, or
    changing it there, changes nothing of what is rendered. *)
Lemma rendering_ignores_risk_level (props : gmap jsstring JSValue) (v : JSValue) :
  (forall sp input loading error,
     AnalysisPage.render sp
       {| AnalysisPage.input := input; AnalysisPage.loading := loading;
          AnalysisPage.result := JObj (<[js "risk_level" := v]> props);
          AnalysisPage.error := error |}
     = AnalysisPage.render sp
       {| AnalysisPage.input := input; AnalysisPage.loading := loading;
          AnalysisPage.result := JObj props;
          AnalysisPage.error := error |})
  /\ (forall up w,
        SentinelApp.displayResults up (JObj (<[js "risk_level" := v]> props)) w
        = SentinelApp.displayResults up (JObj props) w).
Proof.
  split.
  - intros. unfold AnalysisPage.render. cbn [AnalysisPage.result truthy negb].
    by rewrite !get_field_ignores_risk_level.
  - intros. unfold SentinelApp.displayResults.
    by rewrite !get_field_ignores_risk_level.
Qed.

(** C1: the front ends read the level under [riskLevel].  Of the response
    the README documents, whose level is 'high' under [risk_level], both
    render an undefined level: the badge class is 'badge badge-undefined',
    the label is empty, the bar stands at the fallback 50% and the
    description is the fallback text. *)
Theorem documented_response_renders_no_level :
  get_field Samples.documented_response riskLevel = Return JUndefined
  /\ (forall sp,
        exists view,
          AnalysisPage.render sp
            {| AnalysisPage.input := []; AnalysisPage.loading := false;
               AnalysisPage.result := Samples.documented_response;
               AnalysisPage.error := None |} = Return (inr view)
          /\ AnalysisPage.badge_className view = js "badge badge-undefined"
          /\ AnalysisPage.badge_children view = JUndefined
          /\ AnalysisPage.riskFill_width view = js "50%"
          /\ AnalysisPage.riskFill_data_risk view = JUndefined
          /\ AnalysisPage.riskDescription_children view
             = JStr (js "Risk assessment in progress."))
  /\ (forall up,
        exists r,
          SentinelApp.console_results
            (state (SentinelApp.displayResults up Samples.documented_response
                      (Samples.world (Samples.page_with []) (Rejects TypeError))).2)
          = Some r
          /\ SentinelApp.badge_className r = Some (js "badge badge-undefined")
          /\ SentinelApp.badge_textContent r = []
          /\ SentinelApp.riskValue_textContent r = Some []
          /\ SentinelApp.riskFill_width r = Some (js "50%")
          /\ SentinelApp.riskFill_data_risk r = js "undefined"
          /\ SentinelApp.riskDescription_textContent r
             = Some (js "Risk assessment in progress.")).
Proof.
  split; [by vm_compute|]. split.
  - intros sp. eexists. split; [vm_compute; reflexivity|]. by vm_compute.
  - intros up. eexists. split; [vm_compute; reflexivity|]. by vm_compute.
Qed.

(* ===================================================================== *)
(** ** The two front ends side by side *)
(* ===================================================================== *)

(** For the risk level itself the two front ends compute the same. *)
Lemma front_ends_agree_on_level (level : JSValue) :
  SentinelApp.formatRiskLevel level = AnalysisPage.formatRiskLevel level
  /\ SentinelApp.getRiskPercentage level = AnalysisPage.getRiskPercentage level
  /\ SentinelApp.getRiskDescription level = AnalysisPage.getRiskDescription level
  /\ SentinelApp.riskBadgeClass level = AnalysisPage.getRiskBadgeClass level
  /\ SentinelApp.riskWidth level = AnalysisPage.riskWidth level.
Proof. repeat split. Qed.

(** So they do for the statuses 'clean', 'suspicious' and 'recent'. *)
Lemma front_ends_agree_on_status (s : jsstring) :
  s ∈ [js "clean"; js "suspicious"; js "recent"] ->
  SentinelApp.statusBadgeClass (JStr s)
  = Return (AnalysisPage.statusBadgeClass (JStr s)).
Proof.
  intros H. repeat (apply elem_of_cons in H as [->|H]; [by vm_compute|]).
  by apply elem_of_nil in H.
Qed.

(** C3: the status badge of an evidence row is where the front ends part:
    for 'malicious' the vanilla page picks 'badge badge-high' from its
    table and the React page, which only tells 'clean' from the rest,
    'badge badge-medium'. *)
Theorem malicious_badge_differs :
  SentinelApp.statusBadgeClass (JStr (js "malicious"))
    = Return (js "badge badge-high")
  /\ AnalysisPage.statusBadgeClass (JStr (js "malicious"))
    = js "badge badge-medium"
  /\ SentinelApp.statusBadgeClass (JStr (js "malicious"))
    <> Return (AnalysisPage.statusBadgeClass (JStr (js "malicious")))
  /\ SentinelApp.statusBadgeClass (JStr (js "suspicious"))
    = Return (AnalysisPage.statusBadgeClass (JStr (js "suspicious")))
  /\ (forall sp,
        exists view,
          AnalysisPage.render sp
            {| AnalysisPage.input := []; AnalysisPage.loading := false;
               AnalysisPage.result := Samples.malicious_result;
               AnalysisPage.error := None |} = Return (inr view)
          /\ AnalysisPage.evidence_section view
             = inr [ {| AnalysisPage.row_source := JStr (js "VirusTotal");
                        AnalysisPage.row_badge_className := js "badge badge-medium";
                        AnalysisPage.row_status := JStr (js "malicious");
                        AnalysisPage.row_details := JStr (js "12/70 engines flagged") |} ])
  /\ (exists r,
        SentinelApp.console_results
          (state (SentinelApp.displayResults Samples.ascii_upper
                    Samples.malicious_result
                    (Samples.world (Samples.page_with []) (Rejects TypeError))).2)
        = Some r
        /\ SentinelApp.tbody_innerHTML r
           = Some (SentinelApp.nl ++ js "        <tr>" ++ SentinelApp.nl
                   ++ js "          <td>VirusTotal</td>" ++ SentinelApp.nl
                   ++ js "          <td><span class=" ++ SentinelApp.quote
                   ++ js "badge badge-high" ++ SentinelApp.quote
                   ++ js ">Malicious</span></td>" ++ SentinelApp.nl
                   ++ js "          <td>12/70 engines flagged</td>" ++ SentinelApp.nl
                   ++ js "        </tr>" ++ SentinelApp.nl
                   ++ js "      ")).
Proof.
  do 4 (split; [by vm_compute|]). split.
  - intros sp. eexists. split; [vm_compute; reflexivity|]. by vm_compute.
  - eexists. split; [vm_compute; reflexivity|]. by vm_compute.
Qed.

(* ===================================================================== *)
(** ** The analysis handlers *)
(* ===================================================================== *)

Ltac run_handler :=
  unfold mbind, M_bind, mret, M_ret, try_finally, try_catch, bind, ret, fetch,
    throw, lift, modify, emit, get_state;
  cbn [state events network fst snd negb].

Lemma alerts_app (evs1 evs2 : list Event) :
  alerts (evs1 ++ evs2) = alerts evs1 ++ alerts evs2.
Proof. apply omap_app. Qed.

Lemma requests_app (evs1 evs2 : list Event) :
  requests (evs1 ++ evs2) = requests evs1 ++ requests evs2.
Proof. apply omap_app. Qed.

(** After a response that is not ok, [analyzeInput] and [analyzeImage]
    throw, whatever the body says. *)
Lemma unwrap_not_ok (fallback : string) (json : Outcome JSValue)
    (w : World SentinelApp.Page) :
  exists e, SentinelApp.unwrap fallback (false, json) w = (Throw e, w).
Proof.
  unfold SentinelApp.unwrap. run_handler.
  destruct json as [err|e]; [|by eexists].
  destruct (get_field err error) as [detail|e]; [|by eexists].
  destruct (ToString _) as [message|e]; by eexists.
Qed.

(** C4: when the request fails (it is rejected, or the status is not ok),
    what the user is shown is the fixed text 'Analysis failed. Please try
    again.', or 'Image analysis failed. Please try again.' for an image,
    in both front ends; nothing of the error or of the response body gets
    into it. *)
Theorem request_failure_shows_generic_message
    (toUpperCase : jsstring -> jsstring)
    (react : World AnalysisPage.State) (vanilla : World SentinelApp.Page)
    (el : SentinelApp.InputEl) (file : File) :
  (forall req, request_fails (network react req)) ->
  (forall req, request_fails (network vanilla req)) ->
  truthy (JStr (trim (AnalysisPage.input (state react)))) = true ->
  SentinelApp.threat_input (state vanilla) = Some el ->
  truthy (JStr (trim (SentinelApp.value el))) = true ->
  AnalysisPage.error (state (AnalysisPage.handleAnalyze react).2)
    = Some (js "Analysis failed. Please try again.")
  /\ AnalysisPage.error
       (state (AnalysisPage.handleImageUpload (Some file) react).2)
    = Some (js "Image analysis failed. Please try again.")
  /\ alerts (events (SentinelApp.handleAnalyze toUpperCase vanilla).2)
    = alerts (events vanilla) ++ [js "Analysis failed. Please try again."]
  /\ alerts (events (SentinelApp.onchange toUpperCase (Some file) vanilla).2)
    = alerts (events vanilla)
      ++ [js "Image analysis failed. Please try again."].
Proof.
  intros Hr Hv Hin Hel Hval.
  destruct react as [rs revs rnet], vanilla as [vs vevs vnet];
    cbn [state events network] in *.
  repeat split.
  - unfold AnalysisPage.handleAnalyze, AnalysisPage.setError,
      AnalysisPage.setLoading.
    run_handler. rewrite Hin. cbn [negb network].
    match goal with
    | |- context [rnet ?r] =>
        specialize (Hr r); destruct (rnet r) as [e|ok json]
    end; [done|].
    cbn in Hr. by subst ok.
  - unfold AnalysisPage.handleImageUpload, AnalysisPage.setError,
      AnalysisPage.setLoading.
    run_handler.
    match goal with
    | |- context [rnet ?r] =>
        specialize (Hr r); destruct (rnet r) as [e|ok json]
    end; [done|].
    cbn in Hr. by subst ok.
  - unfold SentinelApp.handleAnalyze, SentinelApp.showError,
      SentinelApp.setLoadingState, SentinelApp.analyzeInput.
    run_handler. rewrite Hel, Hval. cbn [negb network].
    match goal with
    | |- context [vnet ?r] =>
        specialize (Hv r); destruct (vnet r) as [e|ok json]
    end.
    + cbn [events snd]. rewrite !alerts_app. cbn -[js]. by rewrite !app_nil_r.
    + cbn in Hv. subst ok.
      match goal with
      | |- context [SentinelApp.unwrap ?fb ?r ?w] =>
          destruct (unwrap_not_ok fb json w) as [e ->]
      end.
      cbn [events snd]. rewrite !alerts_app. cbn -[js]. by rewrite !app_nil_r.
  - unfold SentinelApp.onchange, SentinelApp.showError,
      SentinelApp.setLoadingState, SentinelApp.analyzeImage.
    run_handler.
    match goal with
    | |- context [vnet ?r] =>
        specialize (Hv r); destruct (vnet r) as [e|ok json]
    end.
    + cbn [events snd]. rewrite !alerts_app. cbn -[js]. by rewrite !app_nil_r.
    + cbn in Hv. subst ok.
      match goal with
      | |- context [SentinelApp.unwrap ?fb ?r ?w] =>
          destruct (unwrap_not_ok fb json w) as [e ->]
      end.
      cbn [events snd]. rewrite !alerts_app. cbn -[js]. by rewrite !app_nil_r.
Qed.

Lemma request_failure_shows_generic_message_witness :
  let body := JObj (object [("error", JStr (js "VirusTotal: API key rejected"))]) in
  let react := Samples.world (Samples.typed (js "http://pay-pal.example"))
                 (Responds false (Return body)) in
  let vanilla := Samples.world (Samples.page_with (js " http://pay-pal.example "))
                   (Responds false (Return body)) in
  let el := {| SentinelApp.value := js " http://pay-pal.example ";
               SentinelApp.input_disabled := false |} in
  let file := {| file_name := js "screenshot.png" |} in
  (forall req, request_fails (network react req))
  /\ (forall req, request_fails (network vanilla req))
  /\ truthy (JStr (trim (AnalysisPage.input (state react)))) = true
  /\ SentinelApp.threat_input (state vanilla) = Some el
  /\ truthy (JStr (trim (SentinelApp.value el))) = true
  /\ AnalysisPage.error (state (AnalysisPage.handleAnalyze react).2)
     = Some (js "Analysis failed. Please try again.")
  /\ AnalysisPage.error
       (state (AnalysisPage.handleImageUpload (Some file) react).2)
     = Some (js "Image analysis failed. Please try again.")
  /\ alerts (events (SentinelApp.handleAnalyze Samples.ascii_upper vanilla).2)
     = alerts (events vanilla) ++ [js "Analysis failed. Please try again."]
  /\ alerts (events (SentinelApp.onchange Samples.ascii_upper (Some file) vanilla).2)
     = alerts (events vanilla)
       ++ [js "Image analysis failed. Please try again."].
Proof.
  intros body react vanilla el file.
  split; [intros req; reflexivity|].
  split; [intros req; reflexivity|].
  split; [reflexivity|].
  split; [reflexivity|].
  split; [reflexivity|].
  apply (request_failure_shows_generic_message Samples.ascii_upper react
           vanilla el file);
    first [reflexivity | intros req; reflexivity].
Defined.

(** C8: on an input that is empty or all whitespace [handleAnalyze] sends
    no request and leaves everything as it was, but for the message
    'Please enter a URL, message, or phone number': the React page puts it
    in its [error] state, the vanilla page in an alert box. *)
Theorem blank_input_sends_nothing
    (toUpperCase : jsstring -> jsstring)
    (react : World AnalysisPage.State) (vanilla : World SentinelApp.Page)
    (el : SentinelApp.InputEl) :
  forallb is_whitespace (AnalysisPage.input (state react)) = true ->
  SentinelApp.threat_input (state vanilla) = Some el ->
  forallb is_whitespace (SentinelApp.value el) = true ->
  AnalysisPage.handleAnalyze react
  = (Return tt,
     {| state :=
          {| AnalysisPage.input := AnalysisPage.input (state react);
             AnalysisPage.loading := AnalysisPage.loading (state react);
             AnalysisPage.result := AnalysisPage.result (state react);
             AnalysisPage.error :=
               Some (js "Please enter a URL, message, or phone number") |};
        events := events react;
        network := network react |})
  /\ SentinelApp.handleAnalyze toUpperCase vanilla
     = (Return tt,
        {| state := state vanilla;
           events := events vanilla
                     ++ [Alert (js "Please enter a URL, message, or phone number")];
           network := network vanilla |})
  /\ requests (events (AnalysisPage.handleAnalyze react).2)
     = requests (events react)
  /\ requests (events (SentinelApp.handleAnalyze toUpperCase vanilla).2)
     = requests (events vanilla).
Proof.
  intros Hin Hel Hval.
  assert (AnalysisPage.handleAnalyze react = (Return tt,
     {| state :=
          {| AnalysisPage.input := AnalysisPage.input (state react);
             AnalysisPage.loading := AnalysisPage.loading (state react);
             AnalysisPage.result := AnalysisPage.result (state react);
             AnalysisPage.error :=
               Some (js "Please enter a URL, message, or phone number") |};
        events := events react;
        network := network react |})) as Hreact.
  { unfold AnalysisPage.handleAnalyze, AnalysisPage.setError. run_handler.
    by rewrite (trim_blank _ Hin). }
  assert (SentinelApp.handleAnalyze toUpperCase vanilla = (Return tt,
        {| state := state vanilla;
           events := events vanilla
                     ++ [Alert (js "Please enter a URL, message, or phone number")];
           network := network vanilla |})) as Hvanilla.
  { unfold SentinelApp.handleAnalyze, SentinelApp.showError. run_handler.
    by rewrite Hel, (trim_blank _ Hval). }
  rewrite Hreact, Hvanilla. cbn [snd events].
  repeat split. rewrite requests_app. cbn -[js]. by rewrite app_nil_r.
Qed.

Lemma blank_input_sends_nothing_witness :
  let blank := [32; 9; 160; 10; 8195; 65279]%N in
  let react := Samples.world (Samples.typed blank) (Responds true (Return JNull)) in
  let vanilla := Samples.world (Samples.page_with blank)
                   (Responds true (Return JNull)) in
  let el := {| SentinelApp.value := blank; SentinelApp.input_disabled := false |} in
  forallb is_whitespace (AnalysisPage.input (state react)) = true
  /\ SentinelApp.threat_input (state vanilla) = Some el
  /\ forallb is_whitespace (SentinelApp.value el) = true
  /\ AnalysisPage.handleAnalyze react
     = (Return tt,
        {| state :=
             {| AnalysisPage.input := AnalysisPage.input (state react);
                AnalysisPage.loading := AnalysisPage.loading (state react);
                AnalysisPage.result := AnalysisPage.result (state react);
                AnalysisPage.error :=
                  Some (js "Please enter a URL, message, or phone number") |};
           events := events react;
           network := network react |})
  /\ SentinelApp.handleAnalyze Samples.ascii_upper vanilla
     = (Return tt,
        {| state := state vanilla;
           events := events vanilla
                     ++ [Alert (js "Please enter a URL, message, or phone number")];
           network := network vanilla |})
  /\ requests (events (AnalysisPage.handleAnalyze react).2)
     = requests (events react)
  /\ requests (events (SentinelApp.handleAnalyze Samples.ascii_upper vanilla).2)
     = requests (events vanilla).
Proof.
  intros blank react vanilla el.
  split; [reflexivity|].
  split; [reflexivity|].
  split; [reflexivity|].
  apply (blank_input_sends_nothing Samples.ascii_upper react vanilla el);
    reflexivity.
Defined.

(* ===================================================================== *)
(** ** The question index of the Education page *)
(* ===================================================================== *)

Lemma handleNext_index (s : EducationPage.State) (i : Z) :
  EducationPage.questions s <> [] ->
  EducationPage.currentIndex s = EducationPage.Int i ->
  0 <= i ->
  EducationPage.currentIndex (EducationPage.handleNext s)
  = EducationPage.Int ((i + 1) mod Z.of_nat (length (EducationPage.questions s))).
Proof.
  intros Hq Hi Hpos. unfold EducationPage.handleNext. cbn. rewrite Hi. cbn.
  destruct (EducationPage.questions s) as [|q qs]; [done|].
  rewrite decide_False by done.
  by rewrite Z.rem_mod_nonneg by (cbn [length]; lia).
Qed.

(** C10: with a non-empty list of questions and an index in bounds,
    [handleNext] takes the index [i] to [(i + 1) mod questions.length];
    after any number of clicks the index is in bounds, there is a question
    to display, and from the last question the next one is the first. *)
Theorem next_question_stays_in_bounds (s : EducationPage.State) (i : Z) (k : nat) :
  EducationPage.questions s <> [] ->
  EducationPage.currentIndex s = EducationPage.Int i ->
  0 <= i < Z.of_nat (length (EducationPage.questions s)) ->
  let n := Z.of_nat (length (EducationPage.questions s)) in
  let s' := Nat.iter k EducationPage.handleNext s in
  EducationPage.questions s' = EducationPage.questions s
  /\ EducationPage.currentIndex s' = EducationPage.Int ((i + Z.of_nat k) mod n)
  /\ 0 <= (i + Z.of_nat k) mod n < n
  /\ is_Some (EducationPage.displayed s')
  /\ EducationPage.currentIndex (EducationPage.handleNext s)
     = EducationPage.Int ((i + 1) mod n)
  /\ (i = n - 1 ->
      EducationPage.currentIndex (EducationPage.handleNext s) = EducationPage.Int 0).
Proof.
  intros Hq Hi Hb n s'.
  assert (0 < n) as Hn by lia.
  assert (EducationPage.questions s' = EducationPage.questions s
          /\ EducationPage.currentIndex s'
             = EducationPage.Int ((i + Z.of_nat k) mod n)) as [Hqs Hidx].
  { subst s'. induction k as [|k [IHq IHi]].
    - cbn. split; [done|]. rewrite Hi. f_equal.
      rewrite Z.add_0_r. symmetry. by apply Z.mod_small.
    - rewrite Nat.iter_succ. split; [by rewrite <- IHq|].
      rewrite (handleNext_index _ _ (ltac:(by rewrite IHq)) IHi)
        by (apply Z.mod_pos_bound; lia).
      rewrite IHq. fold n. f_equal.
      rewrite Z.add_mod_idemp_l by lia. f_equal. lia. }
  assert (0 <= (i + Z.of_nat k) mod n < n) as Hin by (apply Z.mod_pos_bound; lia).
  repeat split; try done; try lia.
  - unfold EducationPage.displayed. rewrite Hidx, Hqs.
    rewrite decide_True by lia.
    apply lookup_lt_is_Some. lia.
  - apply handleNext_index; [done|done|lia].
  - intros ->. rewrite (handleNext_index s (n - 1)); [|done|done|lia].
    fold n. f_equal. replace (n - 1 + 1) with n by lia. apply Z.mod_same. lia.
Qed.

Lemma next_question_stays_in_bounds_witness :
  let s := {| EducationPage.questions :=
                [JStr (js "What is phishing?");
                 JStr (js "What is vishing?");
                 JStr (js "What is a deepfake?")];
              EducationPage.currentIndex := EducationPage.Int 2;
              EducationPage.answer := js "a scam";
              EducationPage.feedback := Some (JStr (js "Correct"));
              EducationPage.loading := false |} in
  let n := Z.of_nat (length (EducationPage.questions s)) in
  let s' := Nat.iter 5 EducationPage.handleNext s in
  EducationPage.questions s <> []
  /\ EducationPage.currentIndex s = EducationPage.Int 2
  /\ 0 <= 2 < Z.of_nat (length (EducationPage.questions s))
  /\ EducationPage.questions s' = EducationPage.questions s
  /\ EducationPage.currentIndex s' = EducationPage.Int ((2 + Z.of_nat 5) mod n)
  /\ 0 <= (2 + Z.of_nat 5) mod n < n
  /\ is_Some (EducationPage.displayed s')
  /\ EducationPage.currentIndex (EducationPage.handleNext s)
     = EducationPage.Int ((2 + 1) mod n)
  /\ (2 = n - 1 ->
      EducationPage.currentIndex (EducationPage.handleNext s) = EducationPage.Int 0).
Proof.
  intros s n s'.
  split; [discriminate|].
  split; [reflexivity|].
  split; [cbn; lia|].
  apply (next_question_stays_in_bounds s 2 5);
    [discriminate | reflexivity | cbn; lia].
Defined.

(** Through the render guard too: a click changes nothing or is
    [handleNext], so the questions stay and the index stays in bounds. *)
Lemma click_next_in_bounds (s : EducationPage.State) (i : Z) :
  EducationPage.questions s <> [] ->
  EducationPage.currentIndex s = EducationPage.Int i ->
  0 <= i < Z.of_nat (length (EducationPage.questions s)) ->
  exists j,
    EducationPage.currentIndex (EducationPage.click_next s) = EducationPage.Int j
    /\ 0 <= j < Z.of_nat (length (EducationPage.questions s))
    /\ EducationPage.questions (EducationPage.click_next s)
       = EducationPage.questions s.
Proof.
  intros Hq Hi Hb. unfold EducationPage.click_next.
  destruct (EducationPage.next_button_shown s); [|by exists i].
  exists ((i + 1) mod Z.of_nat (length (EducationPage.questions s))).
  split; [apply handleNext_index; [done|done|lia]|].
  split; [apply Z.mod_pos_bound; lia|done].
Qed.

(* ===================================================================== *)
(** ** The Risk Aggregator on no evidence *)
(* ===================================================================== *)

(** The guard of step 2 leads to the same verdict: evidence whose weights
    and confidences leave nothing to divide by counts as no evidence. *)
Lemma no_usable_evidence_is_no_evidence (P : Aggregator.Policy)
    (evidence : list Aggregator.Evidence) :
  Qeq_bool (Aggregator.Qsum (Aggregator.share
                               <$> (Aggregator.clamp_evidence <$> evidence))) 0
  = true ->
  Aggregator.Aggregate P evidence = Aggregator.no_evidence P.
Proof.
  intros H. destruct evidence as [|e rest]; [done|].
  unfold Aggregator.Aggregate. by rewrite H.
Qed.

(** C6: on an empty list of evidence [Aggregate] returns the level medium
    with confidence 0 and exactly one uncertainty note, the one that says
    that no independent signal was available; the level is never low. *)
Theorem empty_evidence_is_medium (P : Aggregator.Policy) :
  let verdict := Aggregator.Aggregate P [] in
  Aggregator.risk_level verdict = Medium
  /\ Aggregator.verdict_confidence verdict = 0%Q
  /\ Aggregator.uncertainties verdict = [Aggregator.no_signal_note]
  /\ length (Aggregator.uncertainties verdict) = 1%nat
  /\ Aggregator.risk_level verdict <> Low.
Proof. repeat split. discriminate. Qed.

(* ===================================================================== *)
(** ** The history of a conversation *)
(* ===================================================================== *)

Section History.
Import ConversationStore.

Lemma bounded_length (h : list Exchange) :
  (length (bounded h) <= max_history)%nat.
Proof. unfold bounded. rewrite length_drop. unfold max_history. lia. Qed.

Lemma bounded_short (h : list Exchange) :
  (length h <= max_history)%nat -> bounded h = h.
Proof.
  intros H. unfold bounded.
  by replace (length h - max_history)%nat with 0%nat by lia.
Qed.

(** Trimming early changes nothing of what is kept in the end. *)
Lemma bounded_app (h more : list Exchange) :
  bounded (bounded h ++ more) = bounded (h ++ more).
Proof.
  destruct (decide (length h <= max_history)%nat) as [Hle|Hgt].
  { by rewrite (bounded_short h Hle). }
  unfold bounded, max_history in *.
  rewrite !length_app, length_drop, !skipn_app, drop_drop, length_drop.
  f_equal; f_equal; lia.
Qed.

Lemma history_of_empty (identity : string) : history_of ∅ identity = [].
Proof. unfold history_of. by rewrite lookup_empty. Qed.

Lemma history_of_Upsert (now : Z) (identity utterance : string)
    (r : VerdictOrReply) (store : gmap string ConversationSession) :
  history_of (Upsert now identity utterance r store) identity
  = bounded (history_of store identity ++ [(utterance, r)]).
Proof.
  unfold history_of, Upsert.
  destruct (store !! identity) as [s|]; by rewrite lookup_insert_eq.
Qed.

Lemma history_of_Upsert_other (now : Z) (identity other utterance : string)
    (r : VerdictOrReply) (store : gmap string ConversationSession) :
  identity <> other ->
  history_of (Upsert now identity utterance r store) other
  = history_of store other.
Proof.
  intros Hne. unfold history_of, Upsert.
  destruct (store !! identity) as [s|]; by rewrite lookup_insert_ne.
Qed.

Lemma history_of_run (calls : list Call) (identity : string)
    (store : gmap string ConversationSession) :
  (length (history_of store identity) <= max_history)%nat ->
  history_of (run calls store) identity
  = bounded (history_of store identity ++ exchanges_of identity calls).
Proof.
  revert store. induction calls as [|c calls IH]; intros store Hlen.
  - cbn. by rewrite app_nil_r, bounded_short.
  - cbn [run foldl]. fold (run calls (apply_call store c)).
    unfold exchanges_of. rewrite filter_cons. unfold apply_call.
    case_decide as Hid.
    + subst identity. rewrite IH, history_of_Upsert.
      * rewrite bounded_app. by rewrite <- app_assoc.
      * rewrite history_of_Upsert. apply bounded_length.
    + rewrite IH; by rewrite history_of_Upsert_other.
Qed.

(** When the history is full, the entry that goes is the oldest one. *)
Lemma Upsert_full_drops_oldest (now : Z) (identity utterance : string)
    (r : VerdictOrReply) (store : gmap string ConversationSession) :
  length (history_of store identity) = max_history ->
  history_of (Upsert now identity utterance r store) identity
  = drop 1 (history_of store identity) ++ [(utterance, r)].
Proof.
  intros Hfull. rewrite history_of_Upsert. unfold bounded.
  rewrite length_app, Hfull. cbn [length]. unfold max_history in *.
  rewrite skipn_app. replace (5 + 1 - 5)%nat with 1%nat by lia.
  rewrite Hfull. by cbn.
Qed.

End History.

(** C7: after any sequence of [Upsert] calls, the history kept for an
    identity has at most 5 entries: it is the last 5 of the exchanges of
    that identity, in their order, so the oldest are the ones dropped; and
    one more [Upsert] appends and keeps the last 5 again. *)
Theorem history_bounded_fifo (calls : list ConversationStore.Call)
    (identity : string) :
  let store := ConversationStore.run calls ∅ in
  let all := ConversationStore.exchanges_of identity calls in
  (length (ConversationStore.history_of store identity) <= 5)%nat
  /\ ConversationStore.history_of store identity = drop (length all - 5) all
  /\ forall now utterance r,
       ConversationStore.history_of
         (ConversationStore.Upsert now identity utterance r store) identity
       = drop (length (ConversationStore.history_of store identity) + 1 - 5)
           (ConversationStore.history_of store identity ++ [(utterance, r)]).
Proof.
  intros store all.
  assert (ConversationStore.history_of store identity
          = ConversationStore.bounded all) as Hall.
  { subst store all.
    rewrite history_of_run; rewrite history_of_empty; [done|cbn; lia]. }
  split; [rewrite Hall; apply bounded_length|].
  split; [exact Hall|].
  intros. rewrite history_of_Upsert. unfold ConversationStore.bounded.
  by rewrite length_app.
Qed.

(* ===================================================================== *)
(** ** What the vanilla handlers leave alone *)
(* ===================================================================== *)

Section Frames.
Import SentinelApp.

Lemma grows_refl (w : World Page) : grows [] w w.
Proof. repeat split. by rewrite app_nil_r. Qed.

Lemma grows_trans (evs1 evs2 : list Event) (w1 w2 w3 : World Page) :
  grows evs1 w1 w2 -> grows evs2 w2 w3 -> grows (evs1 ++ evs2) w1 w3.
Proof.
  intros (Hi1 & Hb1 & Hn1 & He1) (Hi2 & Hb2 & Hn2 & He2).
  repeat split; [congruence..|]. by rewrite He2, He1, app_assoc.
Qed.

Lemma silent_ret {A} (a : A) : silent (mret a : M Page A).
Proof. intros w. apply grows_refl. Qed.

Lemma silent_lift {A} (o : Outcome A) : silent (lift o : M Page A).
Proof. intros w. apply grows_refl. Qed.

Lemma silent_get_state : silent (get_state : M Page Page).
Proof. intros w. apply grows_refl. Qed.

Lemma silent_write (target : Write) (s : jsstring) : silent (write target s).
Proof. intros w. repeat split. by rewrite app_nil_r. Qed.

Lemma silent_bind {A B} (m : M Page A) (k : A -> M Page B) :
  silent m -> (forall a, silent (k a)) -> silent (m ≫= k).
Proof.
  intros Hm Hk w. unfold mbind, M_bind, bind.
  specialize (Hm w). destruct (m w) as [[a|e] w1]; [|exact Hm].
  exact (grows_trans [] [] _ _ _ Hm (Hk a w1)).
Qed.

Lemma scrolls_once_silent {A} (m : M Page A) : silent m -> scrolls_once m.
Proof. intros Hm w. left. apply Hm. Qed.

Lemma scrolls_once_bind {A B} (m : M Page A) (k : A -> M Page B) :
  silent m -> (forall a, scrolls_once (k a)) -> scrolls_once (m ≫= k).
Proof.
  intros Hm Hk w. unfold mbind, M_bind, bind.
  specialize (Hm w). destruct (m w) as [[a|e] w1]; [|by left].
  destruct (Hk a w1) as [H|H]; [left|right];
    exact (grows_trans [] _ _ _ _ Hm H).
Qed.

Lemma scrolls_once_emit : scrolls_once (emit ScrollIntoView : M Page unit).
Proof. intros w. right. by repeat split. Qed.

Ltac silent :=
  repeat first
    [ apply silent_ret | apply silent_lift | apply silent_get_state
    | apply silent_write
    | apply silent_bind; [|intros ?]
    | match goal with
      | |- silent (match ?x with _ => _ end) => destruct x
      end ].

Lemma displayResults_scrolls_once (up : jsstring -> jsstring) (result : JSValue) :
  scrolls_once (displayResults up result).
Proof.
  unfold displayResults.
  apply scrolls_once_bind; [apply silent_get_state|]. intros p.
  destruct (console_results p) as [rs|]; [|apply scrolls_once_silent, silent_ret].
  do 5 (apply scrolls_once_bind; [by silent|]; intros _).
  apply scrolls_once_bind; [apply silent_write|]. intros _.
  apply scrolls_once_emit.
Qed.

(** What [unwrap], [analyzeInput] and [analyzeImage] do to the world: the
    request is noted, and nothing else changes. *)
Lemma unwrap_world (fallback : string) (r : bool * Outcome JSValue)
    (w : World Page) :
  (unwrap fallback r w).2 = w.
Proof.
  unfold unwrap. run_handler. destruct r as [[] json]; cbn [fst snd negb].
  - by destruct json.
  - destruct json as [err|]; [|done].
    destruct (get_field err error) as [d|]; [|done].
    by destruct (ToString _).
Qed.

Lemma analyzeInput_world (text : jsstring) (w : World Page) :
  (analyzeInput text w).2
  = {| state := state w;
       events := events w ++ [Fetch (analyze_request apiEndpoint text)];
       network := network w |}.
Proof.
  unfold analyzeInput. run_handler. fold (analyze_request apiEndpoint text).
  destruct (network w _) as [e|ok json]; [done|]. by rewrite unwrap_world.
Qed.

Lemma analyzeImage_world (file : File) (w : World Page) :
  (analyzeImage file w).2
  = {| state := state w;
       events := events w
                 ++ [Fetch (image_request (apiEndpoint ++ js "/image") file)];
       network := network w |}.
Proof.
  unfold analyzeImage. run_handler.
  fold (image_request (apiEndpoint ++ js "/image") file).
  destruct (network w _) as [e|ok json]; [done|]. by rewrite unwrap_world.
Qed.

End Frames.

Section VanillaHandlers.
Import SentinelApp.

Variable toUpperCase : jsstring -> jsstring.

(** A request through [m], then [displayResults]: the world it leaves. *)
Lemma request_then_display (m : M Page JSValue) (req : Request)
    (w : World Page) :
  (forall w0, (m w0).2 = {| state := state w0;
                            events := events w0 ++ [Fetch req];
                            network := network w0 |}) ->
  exists pre,
    grows (Fetch req :: pre) w ((m ≫= displayResults toUpperCase) w).2
    /\ (pre = [] \/ pre = [ScrollIntoView]).
Proof.
  intros Hm. unfold mbind, M_bind, bind.
  specialize (Hm w). destruct (m w) as [[a|e] w0]; cbn [snd] in Hm; subst w0.
  - destruct (displayResults_scrolls_once toUpperCase a
                {| state := state w; events := events w ++ [Fetch req];
                   network := network w |}) as [H|H];
      destruct H as (Hi & Hb & Hn & He); cbn [state events network] in *.
    + exists []. split; [|by left]. repeat split; try done.
      by rewrite He, app_nil_r.
    + exists [ScrollIntoView]. split; [|by right]. repeat split; try done.
      by rewrite He, <- app_assoc.
  - exists []. split; [|by left]. by repeat split.
Qed.

(** The guarded part of [handleAnalyze] and of [onchange]: it never
    throws, it ends with the loading state taken back, and it alerts
    exactly when the request or the display threw. *)
Lemma guarded_analysis (m : M Page JSValue) (req : Request)
    (message label : jsstring) (w : World Page) :
  (forall w0, (m w0).2 = {| state := state w0;
                            events := events w0 ++ [Fetch req];
                            network := network w0 |}) ->
  exists pre post w1,
    try_finally
      (try_catch (m ≫= displayResults toUpperCase)
         (fun err => showError message;; emit (ConsoleError label err)))
      (setLoadingState false) w
    = (Return tt, (setLoadingState false w1).2)
    /\ grows (Fetch req :: pre ++ post) w w1
    /\ (pre = [] \/ pre = [ScrollIntoView])
    /\ match ((m ≫= displayResults toUpperCase) w).1 with
       | Return _ => post = []
       | Throw e => post = [Alert message; ConsoleError label e]
       end.
Proof.
  intros Hm. destruct (request_then_display m req w Hm) as (pre & Hg & Hpre).
  unfold try_finally, try_catch.
  destruct ((m ≫= displayResults toUpperCase) w) as [[[]|e] w0];
    cbn [fst snd] in *.
  - exists pre, [], w0. rewrite app_nil_r. split; [done|]. split; [exact Hg|]. by split.
  - exists pre, [Alert message; ConsoleError label e].
    eexists. split; [reflexivity|]. split; [|done].
    destruct Hg as (Hi & Hb & Hn & He). unfold showError. run_handler.
    repeat split; try done. cbn [events]. rewrite He.
    by rewrite <- !app_assoc.
Qed.

Lemma handleAnalyze_blank (w : World Page) (el : InputEl) :
  threat_input (state w) = Some el ->
  truthy (JStr (trim (value el))) = false ->
  handleAnalyze toUpperCase w
  = (Return tt,
     {| state := state w;
        events := events w
                  ++ [Alert (js "Please enter a URL, message, or phone number")];
        network := network w |}).
Proof.
  intros Hel Hval. unfold handleAnalyze, showError. run_handler.
  by rewrite Hel, Hval.
Qed.

Lemma handleAnalyze_guarded (w : World Page) (el : InputEl) :
  threat_input (state w) = Some el ->
  truthy (JStr (trim (value el))) = true ->
  handleAnalyze toUpperCase w
  = try_finally
      (try_catch (analyzeInput (trim (value el)) ≫= displayResults toUpperCase)
         (fun err => showError (js "Analysis failed. Please try again.");;
                     emit (ConsoleError (js "Analysis error:") err)))
      (setLoadingState false) (setLoadingState true w).2.
Proof.
  intros Hel Hval. unfold handleAnalyze.
  unfold mbind at 1, M_bind at 1, bind at 1, get_state. rewrite Hel, Hval.
  reflexivity.
Qed.

Lemma onchange_guarded (w : World Page) (file : File) :
  onchange toUpperCase (Some file) w
  = try_finally
      (try_catch (analyzeImage file ≫= displayResults toUpperCase)
         (fun err => showError (js "Image analysis failed. Please try again.");;
                     emit (ConsoleError (js "Image analysis error:") err)))
      (setLoadingState false) (setLoadingState true w).2.
Proof. reflexivity. Qed.

End VanillaHandlers.

(* ===================================================================== *)
(** ** The React handlers in closed form *)
(* ===================================================================== *)

Lemma react_handleAnalyze_run (r : World AnalysisPage.State) :
  truthy (JStr (trim (AnalysisPage.input (state r)))) = true ->
  let req := analyze_request (js "http://localhost:5000/api/analyze")
               (trim (AnalysisPage.input (state r))) in
  AnalysisPage.handleAnalyze r
  = (Return tt,
     {| state :=
          {| AnalysisPage.input := AnalysisPage.input (state r);
             AnalysisPage.loading := false;
             AnalysisPage.result :=
               match settle "Analysis failed" (network r req) with
               | Return data => data
               | Throw _ => AnalysisPage.result (state r)
               end;
             AnalysisPage.error :=
               match settle "Analysis failed" (network r req) with
               | Return _ => None
               | Throw _ => Some (js "Analysis failed. Please try again.")
               end |};
        events :=
          events r ++ Fetch req ::
            match settle "Analysis failed" (network r req) with
            | Return _ => []
            | Throw e => [ConsoleError (js "Analysis error:") e]
            end;
        network := network r |}).
Proof.
  intros Hin req.
  unfold AnalysisPage.handleAnalyze, AnalysisPage.setError,
    AnalysisPage.setLoading, AnalysisPage.setResult.
  run_handler. rewrite Hin. cbn [negb network].
  fold (analyze_request (js "http://localhost:5000/api/analyze")
          (trim (AnalysisPage.input (state r)))). fold req.
  destruct (network r req) as [e|[] [data|e]]; cbn -[js];
    by rewrite <- ?app_assoc.
Qed.

Lemma react_handleImageUpload_run (r : World AnalysisPage.State) (file : File) :
  let req := image_request (js "http://localhost:5000/api/analyze/image") file in
  AnalysisPage.handleImageUpload (Some file) r
  = (Return tt,
     {| state :=
          {| AnalysisPage.input := AnalysisPage.input (state r);
             AnalysisPage.loading := false;
             AnalysisPage.result :=
               match settle "Image analysis failed" (network r req) with
               | Return data => data
               | Throw _ => AnalysisPage.result (state r)
               end;
             AnalysisPage.error :=
               match settle "Image analysis failed" (network r req) with
               | Return _ => None
               | Throw _ => Some (js "Image analysis failed. Please try again.")
               end |};
        events :=
          events r ++ Fetch req ::
            match settle "Image analysis failed" (network r req) with
            | Return _ => []
            | Throw e => [ConsoleError (js "Image analysis error:") e]
            end;
        network := network r |}).
Proof.
  intros req.
  unfold AnalysisPage.handleImageUpload, AnalysisPage.setError,
    AnalysisPage.setLoading, AnalysisPage.setResult.
  run_handler.
  fold (image_request (js "http://localhost:5000/api/analyze/image") file).
  fold req.
  destruct (network r req) as [e|[] [data|e]]; cbn -[js];
    by rewrite <- ?app_assoc.
Qed.

Lemma react_handleAnalyze_blank (r : World AnalysisPage.State) :
  truthy (JStr (trim (AnalysisPage.input (state r)))) = false ->
  AnalysisPage.handleAnalyze r
  = (Return tt,
     {| state :=
          {| AnalysisPage.input := AnalysisPage.input (state r);
             AnalysisPage.loading := AnalysisPage.loading (state r);
             AnalysisPage.result := AnalysisPage.result (state r);
             AnalysisPage.error :=
               Some (js "Please enter a URL, message, or phone number") |};
        events := events r;
        network := network r |}).
Proof.
  intros Hin. unfold AnalysisPage.handleAnalyze, AnalysisPage.setError.
  run_handler. by rewrite Hin.
Qed.

(* ===================================================================== *)
(** ** The analysis handlers, whatever the network does *)
(* ===================================================================== *)


(** No analysis handler lets an exception out: every one is caught and the
    handler returns. The one exception is the vanilla [handleAnalyze] on a
    page without [#threat-input], which throws a TypeError at once, before
    doing anything. *)
Theorem analysis_handlers_never_reject
    (toUpperCase : jsstring -> jsstring)
    (w : World SentinelApp.Page) (r : World AnalysisPage.State)
    (file : option File) :
  match SentinelApp.threat_input (state w) with
  | Some _ => (SentinelApp.handleAnalyze toUpperCase w).1 = Return tt
  | None => SentinelApp.handleAnalyze toUpperCase w = (Throw TypeError, w)
  end
  /\ (SentinelApp.onchange toUpperCase file w).1 = Return tt
  /\ (AnalysisPage.handleAnalyze r).1 = Return tt
  /\ (AnalysisPage.handleImageUpload file r).1 = Return tt.
Proof.
  repeat split.
  - destruct (SentinelApp.threat_input (state w)) as [el|] eqn:Hel.
    + destruct (truthy (JStr (trim (SentinelApp.value el)))) eqn:Hval.
      * rewrite (handleAnalyze_guarded _ _ _ Hel Hval).
        destruct (guarded_analysis toUpperCase _ _
                    (js "Analysis failed. Please try again.")
                    (js "Analysis error:") (SentinelApp.setLoadingState true w).2
                    (analyzeInput_world (trim (SentinelApp.value el))))
          as (pre & post & w1 & -> & _). done.
      * by rewrite (handleAnalyze_blank _ _ _ Hel Hval).
    + unfold SentinelApp.handleAnalyze. run_handler. rewrite Hel.
      by destruct w.
  - destruct file as [file|]; [|done]. rewrite onchange_guarded.
    destruct (guarded_analysis toUpperCase _ _
                (js "Image analysis failed. Please try again.")
                (js "Image analysis error:")
                (SentinelApp.setLoadingState true w).2
                (analyzeImage_world file))
      as (pre & post & w1 & -> & _). done.
  - destruct (truthy (JStr (trim (AnalysisPage.input (state r))))) eqn:Hin.
    + by rewrite (react_handleAnalyze_run _ Hin).
    + by rewrite (react_handleAnalyze_blank _ Hin).
  - destruct file as [file|]; [|done].
    by rewrite react_handleImageUpload_run.
Qed.

(** The vanilla page after a guarded analysis: the controls are enabled
    again, and exactly one request went out. *)
Lemma guarded_analysis_leaves (toUpperCase : jsstring -> jsstring)
    (m : M SentinelApp.Page JSValue) (req : Request)
    (message label : jsstring) (w : World SentinelApp.Page) :
  (forall w0, (m w0).2 = {| state := state w0;
                            events := events w0 ++ [Fetch req];
                            network := network w0 |}) ->
  let w' := (try_finally
               (try_catch (m ≫= SentinelApp.displayResults toUpperCase)
                  (fun err => SentinelApp.showError message;;
                              emit (ConsoleError label err)))
               (SentinelApp.setLoadingState false)
               (SentinelApp.setLoadingState true w).2).2 in
  SentinelApp.threat_input (state w')
  = (fun el => {| SentinelApp.value := SentinelApp.value el;
                  SentinelApp.input_disabled := false |})
      <$> SentinelApp.threat_input (state w)
  /\ SentinelApp.analyze_btn (state w')
     = (fun _ => {| SentinelApp.btn_disabled := false;
                    SentinelApp.btn_text := js "Analyze" |})
         <$> SentinelApp.analyze_btn (state w)
  /\ requests (events w') = requests (events w) ++ [req].
Proof.
  intros Hm w'. subst w'.
  destruct (guarded_analysis toUpperCase m req message label
              (SentinelApp.setLoadingState true w).2 Hm)
    as (pre & post & w1 & -> & (Hi & Hb & Hn & He) & Hpre & Hpost).
  cbn [snd SentinelApp.setLoadingState modify state events
       SentinelApp.threat_input SentinelApp.analyze_btn] in *.
  rewrite Hi, Hb, He. repeat split.
  - by destruct (SentinelApp.threat_input (state w)).
  - by destruct (SentinelApp.analyze_btn (state w)).
  - rewrite requests_app. f_equal.
    destruct (_.1) as [a|e]; subst post;
      destruct Hpre as [-> | ->]; reflexivity.
Qed.

Lemma analysis_request_added (toUpperCase : jsstring -> jsstring)
    (w : World SentinelApp.Page) (el : SentinelApp.InputEl) :
  SentinelApp.threat_input (state w) = Some el ->
  truthy (JStr (trim (SentinelApp.value el))) = true ->
  exists req,
    requests (events (SentinelApp.handleAnalyze toUpperCase w).2)
    = requests (events w) ++ [req].
Proof.
  intros Hel Hval. rewrite (handleAnalyze_guarded _ _ _ Hel Hval).
  eexists.
  by destruct (guarded_analysis_leaves toUpperCase _ _
                 (js "Analysis failed. Please try again.")
                 (js "Analysis error:")
                 w (analyzeInput_world (trim (SentinelApp.value el))))
    as (_ & _ & ->).
Qed.

(** Once a handler is through, the loading state is taken back whatever
    the request came to: on the vanilla page the input is enabled with its
    text unchanged and the button is enabled and reads 'Analyze'; on the
    React page [loading] is false and the input is as typed. *)
Theorem loading_state_is_taken_back
    (toUpperCase : jsstring -> jsstring)
    (w : World SentinelApp.Page) (r : World AnalysisPage.State)
    (el : SentinelApp.InputEl) (file : File) :
  SentinelApp.threat_input (state w) = Some el ->
  truthy (JStr (trim (SentinelApp.value el))) = true ->
  truthy (JStr (trim (AnalysisPage.input (state r)))) = true ->
  let enabled := Some {| SentinelApp.value := SentinelApp.value el;
                         SentinelApp.input_disabled := false |} in
  let analyze := (fun _ : SentinelApp.ButtonEl =>
                    {| SentinelApp.btn_disabled := false;
                       SentinelApp.btn_text := js "Analyze" |})
                   <$> SentinelApp.analyze_btn (state w) in
  SentinelApp.threat_input (state (SentinelApp.handleAnalyze toUpperCase w).2)
  = enabled
  /\ SentinelApp.analyze_btn (state (SentinelApp.handleAnalyze toUpperCase w).2)
     = analyze
  /\ SentinelApp.threat_input
       (state (SentinelApp.onchange toUpperCase (Some file) w).2) = enabled
  /\ SentinelApp.analyze_btn
       (state (SentinelApp.onchange toUpperCase (Some file) w).2) = analyze
  /\ AnalysisPage.loading (state (AnalysisPage.handleAnalyze r).2) = false
  /\ AnalysisPage.input (state (AnalysisPage.handleAnalyze r).2)
     = AnalysisPage.input (state r)
  /\ AnalysisPage.loading
       (state (AnalysisPage.handleImageUpload (Some file) r).2) = false
  /\ AnalysisPage.input (state (AnalysisPage.handleImageUpload (Some file) r).2)
     = AnalysisPage.input (state r).
Proof.
  intros Hel Hval Hin enabled analyze. subst enabled analyze.
  rewrite (handleAnalyze_guarded _ _ _ Hel Hval), onchange_guarded.
  destruct (guarded_analysis_leaves toUpperCase _ _
              (js "Analysis failed. Please try again.") (js "Analysis error:")
              w (analyzeInput_world (trim (SentinelApp.value el))))
    as (H1 & H2 & _).
  destruct (guarded_analysis_leaves toUpperCase _ _
              (js "Image analysis failed. Please try again.")
              (js "Image analysis error:") w (analyzeImage_world file))
    as (H3 & H4 & _).
  rewrite H1, H2, H3, H4, Hel, (react_handleAnalyze_run _ Hin),
    react_handleImageUpload_run.
  by repeat split.
Qed.

Lemma loading_state_is_taken_back_witness :
  let w := Samples.world (Samples.page_with (js "http://pay-pal.example"))
             (Responds true (Return Samples.malicious_result)) in
  let r := Samples.world (Samples.typed (js "http://pay-pal.example"))
             (Rejects TypeError) in
  let el := {| SentinelApp.value := js "http://pay-pal.example";
               SentinelApp.input_disabled := false |} in
  let file := {| file_name := js "screenshot.png" |} in
  let enabled := Some {| SentinelApp.value := SentinelApp.value el;
                         SentinelApp.input_disabled := false |} in
  let analyze := (fun _ : SentinelApp.ButtonEl =>
                    {| SentinelApp.btn_disabled := false;
                       SentinelApp.btn_text := js "Analyze" |})
                   <$> SentinelApp.analyze_btn (state w) in
  SentinelApp.threat_input (state w) = Some el
  /\ truthy (JStr (trim (SentinelApp.value el))) = true
  /\ truthy (JStr (trim (AnalysisPage.input (state r)))) = true
  /\ SentinelApp.threat_input
       (state (SentinelApp.handleAnalyze Samples.ascii_upper w).2) = enabled
  /\ SentinelApp.analyze_btn
       (state (SentinelApp.handleAnalyze Samples.ascii_upper w).2) = analyze
  /\ SentinelApp.threat_input
       (state (SentinelApp.onchange Samples.ascii_upper (Some file) w).2)
     = enabled
  /\ SentinelApp.analyze_btn
       (state (SentinelApp.onchange Samples.ascii_upper (Some file) w).2)
     = analyze
  /\ AnalysisPage.loading (state (AnalysisPage.handleAnalyze r).2) = false
  /\ AnalysisPage.input (state (AnalysisPage.handleAnalyze r).2)
     = AnalysisPage.input (state r)
  /\ AnalysisPage.loading
       (state (AnalysisPage.handleImageUpload (Some file) r).2) = false
  /\ AnalysisPage.input (state (AnalysisPage.handleImageUpload (Some file) r).2)
     = AnalysisPage.input (state r).
Proof.
  intros w r el file enabled analyze.
  split; [reflexivity|]. split; [reflexivity|]. split; [reflexivity|].
  apply (loading_state_is_taken_back Samples.ascii_upper w r el file);
    reflexivity.
Defined.

(** An analysis of an input that is not blank sends exactly one request,
    whatever comes back: a POST with the JSON content type whose body is
    [{input}] with the trimmed text, to [/api/analyze] from the vanilla
    page and to [http://localhost:5000/api/analyze] from the React page. *)
Theorem analysis_sends_one_request
    (toUpperCase : jsstring -> jsstring)
    (w : World SentinelApp.Page) (r : World AnalysisPage.State)
    (el : SentinelApp.InputEl) :
  SentinelApp.threat_input (state w) = Some el ->
  truthy (JStr (trim (SentinelApp.value el))) = true ->
  truthy (JStr (trim (AnalysisPage.input (state r)))) = true ->
  requests (events (SentinelApp.handleAnalyze toUpperCase w).2)
  = requests (events w)
    ++ [ {| url := js "/api/analyze";
            method := js "POST";
            headers := [(js "Content-Type", js "application/json")];
            body := JsonBody (JObj (object
                      [("input", JStr (trim (SentinelApp.value el)))])) |} ]
  /\ requests (events (AnalysisPage.handleAnalyze r).2)
     = requests (events r)
       ++ [ {| url := js "http://localhost:5000/api/analyze";
               method := js "POST";
               headers := [(js "Content-Type", js "application/json")];
               body := JsonBody (JObj (object
                         [("input",
                           JStr (trim (AnalysisPage.input (state r))))])) |} ].
Proof.
  intros Hel Hval Hin. split.
  - rewrite (handleAnalyze_guarded _ _ _ Hel Hval).
    by destruct (guarded_analysis_leaves toUpperCase _ _
                   (js "Analysis failed. Please try again.")
                   (js "Analysis error:")
                   w (analyzeInput_world (trim (SentinelApp.value el))))
      as (_ & _ & ->).
  - rewrite (react_handleAnalyze_run _ Hin). cbn [snd events].
    rewrite requests_app. f_equal.
    by destruct (settle _ _).
Qed.

Lemma analysis_sends_one_request_witness :
  let w := Samples.world (Samples.page_with (js "  call +1-800-123-4567 "))
             (Responds false (Throw SyntaxError)) in
  let r := Samples.world (Samples.typed (js "  call +1-800-123-4567 "))
             (Responds true (Return JNull)) in
  let el := {| SentinelApp.value := js "  call +1-800-123-4567 ";
               SentinelApp.input_disabled := false |} in
  SentinelApp.threat_input (state w) = Some el
  /\ truthy (JStr (trim (SentinelApp.value el))) = true
  /\ truthy (JStr (trim (AnalysisPage.input (state r)))) = true
  /\ requests (events (SentinelApp.handleAnalyze Samples.ascii_upper w).2)
     = requests (events w)
       ++ [ {| url := js "/api/analyze";
               method := js "POST";
               headers := [(js "Content-Type", js "application/json")];
               body := JsonBody (JObj (object
                         [("input", JStr (trim (SentinelApp.value el)))])) |} ]
  /\ requests (events (AnalysisPage.handleAnalyze r).2)
     = requests (events r)
       ++ [ {| url := js "http://localhost:5000/api/analyze";
               method := js "POST";
               headers := [(js "Content-Type", js "application/json")];
               body := JsonBody (JObj (object
                         [("input",
                           JStr (trim (AnalysisPage.input (state r))))])) |} ].
Proof.
  intros w r el.
  split; [reflexivity|]. split; [reflexivity|]. split; [reflexivity|].
  apply (analysis_sends_one_request Samples.ascii_upper w r el); reflexivity.
Defined.

(** Choosing an image sends exactly one request, a POST of the form data
    with the file under [image] and no header of its own, to
    [/api/analyze/image] (vanilla) or to
    [http://localhost:5000/api/analyze/image] (React); a picker closed
    without a file changes nothing at all. *)
Theorem image_upload_sends_one_request
    (toUpperCase : jsstring -> jsstring)
    (w : World SentinelApp.Page) (r : World AnalysisPage.State) (file : File) :
  requests (events (SentinelApp.onchange toUpperCase (Some file) w).2)
  = requests (events w)
    ++ [ {| url := js "/api/analyze/image"; method := js "POST";
            headers := []; body := FormData [(js "image", file)] |} ]
  /\ requests (events (AnalysisPage.handleImageUpload (Some file) r).2)
     = requests (events r)
       ++ [ {| url := js "http://localhost:5000/api/analyze/image";
               method := js "POST";
               headers := []; body := FormData [(js "image", file)] |} ]
  /\ SentinelApp.onchange toUpperCase None w = (Return tt, w)
  /\ AnalysisPage.handleImageUpload None r = (Return tt, r).
Proof.
  split; [|split; [|done]].
  - rewrite onchange_guarded.
    by destruct (guarded_analysis_leaves toUpperCase _ _
                   (js "Image analysis failed. Please try again.")
                   (js "Image analysis error:") w (analyzeImage_world file))
      as (_ & _ & ->).
  - rewrite react_handleImageUpload_run. cbn [snd events].
    rewrite requests_app. f_equal. by destruct (settle _ _).
Qed.

(** A key pressed in the input of the vanilla page sends a request exactly
    when it is Enter with Ctrl or Cmd held and the text is not blank. *)
Theorem keydown_sends_request_iff
    (toUpperCase : jsstring -> jsstring)
    (w : World SentinelApp.Page) (el : SentinelApp.InputEl)
    (key : jsstring) (metaKey ctrlKey : bool) :
  SentinelApp.threat_input (state w) = Some el ->
  requests (events (SentinelApp.onkeydown toUpperCase key metaKey ctrlKey w).2)
  <> requests (events w)
  <-> key = js "Enter" /\ (metaKey = true \/ ctrlKey = true)
      /\ trim (SentinelApp.value el) <> [].
Proof.
  intros Hel. unfold SentinelApp.onkeydown.
  destruct (bool_decide_reflect (key = js "Enter")) as [Hkey|Hkey];
    cbn [andb]; [|by split; [|intros (? & _)]].
  destruct (metaKey || ctrlKey) eqn:Hmod; cycle 1.
  { apply orb_false_elim in Hmod as [-> ->].
    split; [done|]. by intros (_ & [?|?] & _). }
  unfold detached. cbn [snd].
  destruct (truthy (JStr (trim (SentinelApp.value el)))) eqn:Hval.
  - destruct (analysis_request_added toUpperCase w el Hel Hval) as [req ->].
    split.
    + intros _. split; [done|]. split.
      * apply orb_prop in Hmod. tauto.
      * intros Heq. by rewrite Heq in Hval.
    + intros _ Heq. rewrite <- (app_nil_r (requests (events w))) in Heq at 2.
      by apply app_inv_head in Heq.
  - rewrite (handleAnalyze_blank _ _ _ Hel Hval). cbn [snd events].
    rewrite requests_app, app_nil_r. split; [done|].
    intros (_ & _ & Hne). by destruct (trim (SentinelApp.value el)).
Qed.

Lemma keydown_sends_request_iff_witness :
  let w := Samples.world (Samples.page_with (js "http://pay-pal.example"))
             (Rejects TypeError) in
  let el := {| SentinelApp.value := js "http://pay-pal.example";
               SentinelApp.input_disabled := false |} in
  SentinelApp.threat_input (state w) = Some el
  /\ (requests
        (events (SentinelApp.onkeydown Samples.ascii_upper (js "Enter")
                   false true w).2)
      <> requests (events w)
      <-> js "Enter" = js "Enter" /\ (false = true \/ true = true)
          /\ trim (SentinelApp.value el) <> []).
Proof.
  intros w el. split; [reflexivity|].
  apply (keydown_sends_request_iff Samples.ascii_upper w el (js "Enter")
           false true).
  reflexivity.
Defined.

(* ===================================================================== *)
(** ** A verdict of the expected shape is displayed *)
(* ===================================================================== *)

Section Display.
Import SentinelApp.

Variable toUpperCase : jsstring -> jsstring.

Lemma primitive_stringable (v : JSValue) :
  Shape.primitive v = true -> stringable v.
Proof. destruct v as [| |[]| | | | | |]; try done; intros _; by eexists. Qed.


Lemma js_or_stringable (a b : JSValue) :
  stringable a -> stringable b -> stringable (js_or a b).
Proof. intros Ha Hb. unfold js_or. by destruct (truthy a). Qed.

(** Whatever a table of strings and numbers answers can be converted. *)
Lemma table_stringable (table : list (string * JSValue)) (k : jsstring) :
  Forall (fun kv => Shape.primitive kv.2 = true) table ->
  stringable (get (object table) k).
Proof.
  intros Htable. unfold get.
  destruct (object table !! k) as [v|] eqn:E.
  - apply primitive_stringable.
    unfold object in E. apply elem_of_list_to_map_2 in E.
    apply list_elem_of_fmap in E as ([k' v'] & [= -> ->] & Hin).
    rewrite Forall_forall in Htable.
    exact (Htable _ Hin).
  - case_decide; [by eexists|].
    destruct (Object_prototype !! k) as [v|] eqn:E'; [|by eexists].
    unfold Object_prototype in E'. apply elem_of_list_to_map_2 in E'.
    repeat (apply elem_of_cons in E' as [[= ? ->]|E']; [by eexists|]).
    by apply elem_of_nil in E'.
Qed.

Lemma index_stringable (table : list (string * JSValue)) (key : JSValue) :
  Forall (fun kv => Shape.primitive kv.2 = true) table ->
  stringable key ->
  exists found, index (object table) key = Return found /\ stringable found.
Proof.
  intros Htable [k Hk]. unfold index. rewrite Hk. eexists. split; [done|].
  by apply table_stringable.
Qed.




Lemma getStatusBadge_returns (st : JSValue) :
  stringable st ->
  exists b, getStatusBadge st = Return b /\ stringable b.
Proof.
  intros Hl. unfold getStatusBadge.
  match goal with
  | |- context [index (object ?table) _] =>
      destruct (index_stringable table st ltac:(by repeat constructor) Hl)
        as (found & -> & Hf)
  end.
  eexists. split; [done|]. apply js_or_stringable; [done|by eexists].
Qed.














End Display.

Lemma analyzeInput_ok (text : jsstring) (result : JSValue)
    (w : World SentinelApp.Page) :
  network w (analyze_request SentinelApp.apiEndpoint text)
  = Responds true (Return result) ->
  SentinelApp.analyzeInput text w
  = (Return result,
     {| state := state w;
        events := events w
                  ++ [Fetch (analyze_request SentinelApp.apiEndpoint text)];
        network := network w |}).
Proof.
  intros Hnet. unfold SentinelApp.analyzeInput, SentinelApp.unwrap.
  run_handler. fold (analyze_request SentinelApp.apiEndpoint text).
  by rewrite Hnet.
Qed.



(* ===================================================================== *)
(** ** What a request comes to *)
(* ===================================================================== *)

(** The React page after an analysis of an input that is not blank: with
    an ok response whose body parses, the body is the new result and the
    error is cleared; in every other case (the request is rejected, the
    status is not ok, the body does not parse) the error is the fixed text
    and the result shown before is kept.  Loading ends either way. *)
Theorem react_analysis_result (r : World AnalysisPage.State) :
  truthy (JStr (trim (AnalysisPage.input (state r)))) = true ->
  let answer := network r (analyze_request (js "http://localhost:5000/api/analyze")
                             (trim (AnalysisPage.input (state r)))) in
  let s' := state (AnalysisPage.handleAnalyze r).2 in
  AnalysisPage.loading s' = false
  /\ match answer with
     | Responds true (Return data) =>
         AnalysisPage.result s' = data /\ AnalysisPage.error s' = None
     | _ =>
         AnalysisPage.result s' = AnalysisPage.result (state r)
         /\ AnalysisPage.error s' = Some (js "Analysis failed. Please try again.")
     end.
Proof.
  intros Hin answer s'. subst s'. rewrite (react_handleAnalyze_run _ Hin).
  cbn [snd state AnalysisPage.loading AnalysisPage.result AnalysisPage.error].
  fold answer. split; [done|]. by destruct answer as [e|[] [data|e]].
Qed.

Lemma react_analysis_result_witness :
  let r := {| state := {| AnalysisPage.input := js "http://pay-pal.example";
                          AnalysisPage.loading := false;
                          AnalysisPage.result := Samples.malicious_result;
                          AnalysisPage.error := None |};
              events := [];
              network := fun _ => Responds false (Return JNull) |} in
  let answer := network r (analyze_request (js "http://localhost:5000/api/analyze")
                             (trim (AnalysisPage.input (state r)))) in
  let s' := state (AnalysisPage.handleAnalyze r).2 in
  truthy (JStr (trim (AnalysisPage.input (state r)))) = true
  /\ AnalysisPage.loading s' = false
  /\ match answer with
     | Responds true (Return data) =>
         AnalysisPage.result s' = data /\ AnalysisPage.error s' = None
     | _ =>
         AnalysisPage.result s' = AnalysisPage.result (state r)
         /\ AnalysisPage.error s' = Some (js "Analysis failed. Please try again.")
     end.
Proof.
  intros r answer s'. split; [reflexivity|].
  apply (react_analysis_result r). reflexivity.
Defined.

(** What the React page logs: the exception of a rejected request or of a
    body that does not parse as it is, and for a status that is not ok the
    error 'Analysis failed', whatever the body says: that body is never
    read.  Nothing is logged on success. *)
Theorem react_analysis_log (r : World AnalysisPage.State) :
  truthy (JStr (trim (AnalysisPage.input (state r)))) = true ->
  let req := analyze_request (js "http://localhost:5000/api/analyze")
               (trim (AnalysisPage.input (state r))) in
  events (AnalysisPage.handleAnalyze r).2
  = events r ++ Fetch req ::
      match network r req with
      | Rejects e | Responds true (Throw e) =>
          [ConsoleError (js "Analysis error:") e]
      | Responds false _ =>
          [ConsoleError (js "Analysis error:") (Error (js "Analysis failed"))]
      | Responds true (Return _) => []
      end.
Proof.
  intros Hin req. rewrite (react_handleAnalyze_run _ Hin).
  cbn [snd events]. fold req. by destruct (network r req) as [e|[] [data|e]].
Qed.

Lemma react_analysis_log_witness :
  let r := Samples.world (Samples.typed (js "http://pay-pal.example"))
             (Responds false (Return (JObj (object
                [("error", JStr (js "VirusTotal: API key rejected"))])))) in
  let req := analyze_request (js "http://localhost:5000/api/analyze")
               (trim (AnalysisPage.input (state r))) in
  truthy (JStr (trim (AnalysisPage.input (state r)))) = true
  /\ events (AnalysisPage.handleAnalyze r).2
     = events r ++ Fetch req ::
         match network r req with
         | Rejects e | Responds true (Throw e) =>
             [ConsoleError (js "Analysis error:") e]
         | Responds false _ =>
             [ConsoleError (js "Analysis error:") (Error (js "Analysis failed"))]
         | Responds true (Return _) => []
         end.
Proof.
  intros r req. split; [reflexivity|].
  apply (react_analysis_log r). reflexivity.
Defined.

Section VanillaFailures.
Import SentinelApp.

Variable toUpperCase : jsstring -> jsstring.

(** When [analyzeInput] throws, [handleAnalyze] alerts the fixed text and
    logs what was thrown; the results section is not touched. *)
Lemma handleAnalyze_request_throws (w : World Page) (el : InputEl) (e : Exn) :
  threat_input (state w) = Some el ->
  truthy (JStr (trim (value el))) = true ->
  (analyzeInput (trim (value el)) (setLoadingState true w).2).1 = Throw e ->
  events (handleAnalyze toUpperCase w).2
  = events w
    ++ [Fetch (analyze_request apiEndpoint (trim (value el)));
        Alert (js "Analysis failed. Please try again.");
        ConsoleError (js "Analysis error:") e]
  /\ console_results (state (handleAnalyze toUpperCase w).2)
     = console_results (state w).
Proof.
  intros Hel Hval Hthrow. rewrite (handleAnalyze_guarded _ _ _ Hel Hval).
  unfold try_finally, try_catch, mbind, M_bind, bind.
  pose proof (analyzeInput_world (trim (value el)) (setLoadingState true w).2)
    as Hw.
  destruct (analyzeInput _ _) as [o w0]. cbn [fst snd] in *. subst o w0.
  cbn -[js trim]. by rewrite <- !app_assoc.
Qed.

Lemma analyzeInput_not_ok (text : jsstring) (body detail : JSValue)
    (message : jsstring) (w : World Page) :
  network w (analyze_request apiEndpoint text) = Responds false (Return body) ->
  get_field body error = Return detail ->
  ToString (js_or detail (JStr (js "API request failed"))) = Return message ->
  (analyzeInput text w).1 = Throw (Error message).
Proof.
  intros Hnet Hdetail Hmessage. unfold analyzeInput, unwrap. run_handler.
  fold (analyze_request apiEndpoint text). rewrite Hnet.
  cbn [fst snd negb]. by rewrite Hdetail, Hmessage.
Qed.

Lemma analyzeInput_unparsable (text : jsstring) (e : Exn) (w : World Page) :
  network w (analyze_request apiEndpoint text) = Responds true (Throw e) ->
  (analyzeInput text w).1 = Throw e.
Proof.
  intros Hnet. unfold analyzeInput, unwrap. run_handler.
  fold (analyze_request apiEndpoint text). by rewrite Hnet.
Qed.

End VanillaFailures.

(** On the vanilla page a response that is not ok is read for its [error]
    property: that text, or 'API request failed' when there is none, is
    what the console gets as the message of the error, while the alert
    shows the fixed text. *)
Theorem server_error_detail_goes_to_console
    (toUpperCase : jsstring -> jsstring)
    (w : World SentinelApp.Page) (el : SentinelApp.InputEl)
    (body detail : JSValue) (message : jsstring) :
  SentinelApp.threat_input (state w) = Some el ->
  truthy (JStr (trim (SentinelApp.value el))) = true ->
  network w (analyze_request (js "/api/analyze") (trim (SentinelApp.value el)))
  = Responds false (Return body) ->
  get_field body error = Return detail ->
  ToString (js_or detail (JStr (js "API request failed"))) = Return message ->
  events (SentinelApp.handleAnalyze toUpperCase w).2
  = events w
    ++ [Fetch (analyze_request (js "/api/analyze")
                 (trim (SentinelApp.value el)));
        Alert (js "Analysis failed. Please try again.");
        ConsoleError (js "Analysis error:") (Error message)].
Proof.
  intros Hel Hval Hnet Hdetail Hmessage.
  apply (handleAnalyze_request_throws toUpperCase w el (Error message) Hel Hval).
  exact (analyzeInput_not_ok _ body detail message
           (SentinelApp.setLoadingState true w).2 Hnet Hdetail Hmessage).
Qed.

Lemma server_error_detail_goes_to_console_witness :
  let body := JObj (object [("error", JStr (js "VirusTotal: API key rejected"))]) in
  let w := Samples.world (Samples.page_with (js "http://pay-pal.example"))
             (Responds false (Return body)) in
  let el := {| SentinelApp.value := js "http://pay-pal.example";
               SentinelApp.input_disabled := false |} in
  SentinelApp.threat_input (state w) = Some el
  /\ truthy (JStr (trim (SentinelApp.value el))) = true
  /\ network w (analyze_request (js "/api/analyze")
                  (trim (SentinelApp.value el)))
     = Responds false (Return body)
  /\ get_field body error = Return (JStr (js "VirusTotal: API key rejected"))
  /\ ToString (js_or (JStr (js "VirusTotal: API key rejected"))
                 (JStr (js "API request failed")))
     = Return (js "VirusTotal: API key rejected")
  /\ events (SentinelApp.handleAnalyze Samples.ascii_upper w).2
     = events w
       ++ [Fetch (analyze_request (js "/api/analyze")
                    (trim (SentinelApp.value el)));
           Alert (js "Analysis failed. Please try again.");
           ConsoleError (js "Analysis error:")
             (Error (js "VirusTotal: API key rejected"))].
Proof.
  intros body w el.
  do 5 (split; [reflexivity|]).
  apply (server_error_detail_goes_to_console Samples.ascii_upper w el body
           (JStr (js "VirusTotal: API key rejected"))
           (js "VirusTotal: API key rejected")); reflexivity.
Defined.

(** An ok response whose body does not parse is a failure on the vanilla
    page too: the fixed text is alerted, the parser's exception goes to the
    console, and the results section stays as it was. *)
Theorem unparsable_body_shows_generic_message
    (toUpperCase : jsstring -> jsstring)
    (w : World SentinelApp.Page) (el : SentinelApp.InputEl) (e : Exn) :
  SentinelApp.threat_input (state w) = Some el ->
  truthy (JStr (trim (SentinelApp.value el))) = true ->
  network w (analyze_request (js "/api/analyze") (trim (SentinelApp.value el)))
  = Responds true (Throw e) ->
  events (SentinelApp.handleAnalyze toUpperCase w).2
  = events w
    ++ [Fetch (analyze_request (js "/api/analyze")
                 (trim (SentinelApp.value el)));
        Alert (js "Analysis failed. Please try again.");
        ConsoleError (js "Analysis error:") e]
  /\ SentinelApp.console_results
       (state (SentinelApp.handleAnalyze toUpperCase w).2)
     = SentinelApp.console_results (state w).
Proof.
  intros Hel Hval Hnet.
  apply (handleAnalyze_request_throws toUpperCase w el e Hel Hval).
  exact (analyzeInput_unparsable _ e (SentinelApp.setLoadingState true w).2 Hnet).
Qed.

Lemma unparsable_body_shows_generic_message_witness :
  let w := Samples.world (Samples.page_with (js "http://pay-pal.example"))
             (Responds true (Throw SyntaxError)) in
  let el := {| SentinelApp.value := js "http://pay-pal.example";
               SentinelApp.input_disabled := false |} in
  SentinelApp.threat_input (state w) = Some el
  /\ truthy (JStr (trim (SentinelApp.value el))) = true
  /\ network w (analyze_request (js "/api/analyze")
                  (trim (SentinelApp.value el)))
     = Responds true (Throw SyntaxError)
  /\ events (SentinelApp.handleAnalyze Samples.ascii_upper w).2
     = events w
       ++ [Fetch (analyze_request (js "/api/analyze")
                    (trim (SentinelApp.value el)));
           Alert (js "Analysis failed. Please try again.");
           ConsoleError (js "Analysis error:") SyntaxError]
  /\ SentinelApp.console_results
       (state (SentinelApp.handleAnalyze Samples.ascii_upper w).2)
     = SentinelApp.console_results (state w).
Proof.
  intros w el.
  do 3 (split; [reflexivity|]).
  apply (unparsable_body_shows_generic_message Samples.ascii_upper w el
           SyntaxError); reflexivity.
Defined.

(* ===================================================================== *)
(** ** The React page renders a verdict of the expected shape *)
(* ===================================================================== *)





(* ===================================================================== *)
(** ** Edges of the vanilla display *)
(* ===================================================================== *)

(** [displayResults] of [null]: as soon as the results section has one of
    the elements to fill in, reading the verdict throws a TypeError and
    nothing has changed; with none of them the section is just made
    visible and scrolled to. *)
Theorem displayResults_of_null
    (toUpperCase : jsstring -> jsstring)
    (w : World SentinelApp.Page) (r : SentinelApp.ResultsEl) :
  SentinelApp.console_results (state w) = Some r ->
  SentinelApp.displayResults toUpperCase JNull w
  = if has_target r then (Throw TypeError, w)
    else (Return tt,
          {| state :=
               {| SentinelApp.threat_input := SentinelApp.threat_input (state w);
                  SentinelApp.analyze_btn := SentinelApp.analyze_btn (state w);
                  SentinelApp.console_results :=
                    Some (SentinelApp.assign SentinelApp.StyleDisplay
                            (js "block") r) |};
             events := events w ++ [ScrollIntoView];
             network := network w |}).
Proof.
  intros Hr. destruct w as [[ti ab cr] evs net]. cbn in Hr. subst cr.
  destruct r as [[b|] bt [s|] [rv|] [rf|] dr [rd|] [tb|] [rl|] sd];
    reflexivity.
Qed.

Lemma displayResults_of_null_witness :
  let w := Samples.world (Samples.page_with []) (Rejects TypeError) in
  SentinelApp.console_results (state w) = Some Samples.empty_results
  /\ SentinelApp.displayResults Samples.ascii_upper JNull w
     = if has_target Samples.empty_results then (Throw TypeError, w)
       else (Return tt,
             {| state :=
                  {| SentinelApp.threat_input := SentinelApp.threat_input (state w);
                     SentinelApp.analyze_btn := SentinelApp.analyze_btn (state w);
                     SentinelApp.console_results :=
                       Some (SentinelApp.assign SentinelApp.StyleDisplay
                               (js "block") Samples.empty_results) |};
                events := events w ++ [ScrollIntoView];
                network := network w |}).
Proof.
  intros w. split; [reflexivity|].
  apply (displayResults_of_null Samples.ascii_upper w Samples.empty_results).
  reflexivity.
Defined.

(** [setLoadingState] only sets: of two calls in a row the second
    decides, and neither the text of the input, the results section nor
    the events change. *)
Theorem setLoadingState_last_wins (a b : bool) (w : World SentinelApp.Page) :
  (SentinelApp.setLoadingState a;; SentinelApp.setLoadingState b) w
  = SentinelApp.setLoadingState b w
  /\ (SentinelApp.value <$> SentinelApp.threat_input
        (state (SentinelApp.setLoadingState a w).2))
     = (SentinelApp.value <$> SentinelApp.threat_input (state w))
  /\ SentinelApp.console_results (state (SentinelApp.setLoadingState a w).2)
     = SentinelApp.console_results (state w)
  /\ events (SentinelApp.setLoadingState a w).2 = events w.
Proof.
  destruct w as [[[el|] [btn|] cr] evs net]; by repeat split.
Qed.

(** A status outside the five of the table and outside the inherited names
    gets the badge 'info' on the vanilla page; on the React page every
    status other than 'clean' gets 'medium'. *)
Theorem unknown_status_badge (s : jsstring) :
  s ∉ status_keys -> s ∉ inherited_names ->
  SentinelApp.getStatusBadge (JStr s) = Return (JStr (js "info"))
  /\ SentinelApp.statusBadgeClass (JStr s) = Return (js "badge badge-info")
  /\ AnalysisPage.statusBadgeClass (JStr s) = js "badge badge-medium".
Proof.
  intros Hk Hi.
  assert (SentinelApp.getStatusBadge (JStr s) = Return (JStr (js "info")))
    as Hbadge.
  { unfold SentinelApp.getStatusBadge, index.
    cbn [ToString mbind Outcome_bind bind_outcome mret Outcome_ret].
    rewrite get_absent; [done| |done]. by apply object_lookup_absent. }
  split; [done|]. split.
  - unfold SentinelApp.statusBadgeClass. by rewrite Hbadge.
  - unfold AnalysisPage.statusBadgeClass, AnalysisPage.is_clean.
    rewrite bool_decide_eq_false_2; [done|].
    intros ->. apply Hk. unfold status_keys. set_solver.
Qed.

Lemma unknown_status_badge_witness :
  (js "inconclusive" ∉ status_keys)
  /\ (js "inconclusive" ∉ inherited_names)
  /\ SentinelApp.getStatusBadge (JStr (js "inconclusive"))
     = Return (JStr (js "info"))
  /\ SentinelApp.statusBadgeClass (JStr (js "inconclusive"))
     = Return (js "badge badge-info")
  /\ AnalysisPage.statusBadgeClass (JStr (js "inconclusive"))
     = js "badge badge-medium".
Proof.
  assert (js "inconclusive" ∉ status_keys) as Hk.
  { intros H. repeat (apply elem_of_cons in H as [H|H]; [by vm_compute in H|]).
    by apply elem_of_nil in H. }
  assert (js "inconclusive" ∉ inherited_names) as Hi.
  { intros H. vm_compute in H.
    repeat (apply elem_of_cons in H as [H|H]; [discriminate H|]).
    by apply elem_of_nil in H. }
  split; [exact Hk|]. split; [exact Hi|].
  exact (unknown_status_badge (js "inconclusive") Hk Hi).
Defined.

(* ===================================================================== *)
(** ** Evidence rows *)
(* ===================================================================== *)

Lemma map_outcome_throws {A B} (f : A -> Outcome B) (l : list A) :
  Exists (fun x => exists e, f x = Throw e) l ->
  exists e, map_outcome f l = Throw e.
Proof.
  induction 1 as [x l [e He]|x l _ [e IH]]; cbn.
  - rewrite He. by eexists.
  - destruct (f x); [|by eexists]. rewrite IH. by eexists.
Qed.

Lemma always_throws_bind_l {A B} (m : M SentinelApp.Page A)
    (k : A -> M SentinelApp.Page B) :
  always_throws m -> always_throws (m ≫= k).
Proof.
  intros Hm w. unfold mbind, M_bind, bind.
  destruct (Hm w) as [e He]. destruct (m w) as [[a|e'] w1]; [done|by eexists].
Qed.

Lemma always_throws_bind_r {A B} (m : M SentinelApp.Page A)
    (k : A -> M SentinelApp.Page B) :
  (forall a, always_throws (k a)) -> always_throws (m ≫= k).
Proof.
  intros Hk w. unfold mbind, M_bind, bind.
  destruct (m w) as [[a|e] w1]; [apply Hk|by eexists].
Qed.

Lemma always_throws_lift {A} (o : Outcome A) (e : Exn) :
  o = Throw e -> always_throws (lift o : M SentinelApp.Page A).
Proof. intros -> w. by eexists. Qed.

Lemma vanilla_row_needs_string_status (toUpperCase : jsstring -> jsstring)
    (p : gmap jsstring JSValue) :
  Shape.is_string (get p (field_name status)) = false ->
  exists e, SentinelApp.evidenceRow toUpperCase (JObj p) = Throw e.
Proof.
  intros Hst. unfold SentinelApp.evidenceRow.
  cbn [get_field mbind Outcome_bind bind_outcome].
  destruct (ToString (get p (field_name source))); [|by eexists].
  destruct (SentinelApp.statusBadgeClass _); [|by eexists].
  destruct (get p (field_name status)); try done; by eexists.
Qed.



Section BadStatus.
Import SentinelApp.

Variable toUpperCase : jsstring -> jsstring.

Lemma displayResults_bad_row (result : JSValue) (items : list JSValue)
    (w : World Page) (r : ResultsEl) :
  console_results (state w) = Some r ->
  is_Some (tbody_innerHTML r) ->
  get_field result evidence = Return (JArr items) ->
  Exists (fun item => exists e, evidenceRow toUpperCase item = Throw e) items ->
  exists e, (displayResults toUpperCase result w).1 = Throw e.
Proof.
  intros Hr [tb Htb] Hev Hbad. unfold displayResults.
  unfold mbind at 1, M_bind at 1, bind at 1, get_state. rewrite Hr.
  clear Hr. revert w.
  match goal with
  | |- forall w, exists e, (?m w).1 = Throw e => change (always_throws m)
  end.
  do 3 (apply always_throws_bind_r; intros _).
  apply always_throws_bind_l. rewrite Htb, Hev.
  intros w. unfold mbind, M_bind, bind, lift. cbn [truthy].
  destruct (map_outcome_throws _ items Hbad) as [e He].
  unfold map_join. rewrite He. by eexists.
Qed.

End BadStatus.

(** So one evidence item without a string status makes the whole analysis
    fail on the vanilla page: the request succeeded, yet the user is shown
    'Analysis failed. Please try again.'. *)
Theorem evidence_without_status_fails_vanilla_analysis
    (toUpperCase : jsstring -> jsstring)
    (w : World SentinelApp.Page) (el : SentinelApp.InputEl)
    (r : SentinelApp.ResultsEl) (result : JSValue) (items : list JSValue)
    (p : gmap jsstring JSValue) :
  SentinelApp.threat_input (state w) = Some el ->
  truthy (JStr (trim (SentinelApp.value el))) = true ->
  SentinelApp.console_results (state w) = Some r ->
  is_Some (SentinelApp.tbody_innerHTML r) ->
  network w (analyze_request (js "/api/analyze") (trim (SentinelApp.value el)))
  = Responds true (Return result) ->
  get_field result evidence = Return (JArr items) ->
  JObj p ∈ items ->
  Shape.is_string (get p (field_name status)) = false ->
  alerts (events (SentinelApp.handleAnalyze toUpperCase w).2)
  = alerts (events w) ++ [js "Analysis failed. Please try again."].
Proof.
  intros Hel Hval Hr Htb Hnet Hev Hin Hst.
  rewrite (handleAnalyze_guarded _ _ _ Hel Hval).
  destruct (guarded_analysis toUpperCase _ _
              (js "Analysis failed. Please try again.") (js "Analysis error:")
              (SentinelApp.setLoadingState true w).2
              (analyzeInput_world (trim (SentinelApp.value el))))
    as (pre & post & w1 & -> & (_ & _ & _ & He) & Hpre & Hpost).
  assert (exists e,
            ((SentinelApp.analyzeInput (trim (SentinelApp.value el))
              ≫= SentinelApp.displayResults toUpperCase)
               (SentinelApp.setLoadingState true w).2).1 = Throw e) as [e Hthrow].
  { unfold mbind, M_bind, bind.
    rewrite (analyzeInput_ok _ result) by exact Hnet.
    apply (displayResults_bad_row toUpperCase result items _ r);
      [exact Hr|exact Htb|exact Hev|].
    apply Exists_exists. exists (JObj p). split; [exact Hin|].
    by apply vanilla_row_needs_string_status. }
  rewrite Hthrow in Hpost. subst post.
  cbn [snd SentinelApp.setLoadingState modify state events] in *.
  rewrite He, !alerts_app.
  destruct Hpre as [-> | ->]; cbn -[js]; by rewrite ?app_nil_r.
Qed.

Lemma evidence_without_status_fails_vanilla_analysis_witness :
  let p := object [("source", JStr (js "VirusTotal"));
                   ("score", JNum 15);
                   ("confidence", JNum 85);
                   ("evidence", JStr (js "2/70 engines flagged"))] in
  let result := JObj (object [("riskLevel", JStr (js "low"));
                              ("summary", JStr (js "Content appears legitimate"));
                              ("evidence", JArr [JObj p])]) in
  let w := Samples.world (Samples.page_with (js "https://example.com"))
             (Responds true (Return result)) in
  let el := {| SentinelApp.value := js "https://example.com";
               SentinelApp.input_disabled := false |} in
  SentinelApp.threat_input (state w) = Some el
  /\ truthy (JStr (trim (SentinelApp.value el))) = true
  /\ SentinelApp.console_results (state w) = Some Samples.empty_results
  /\ is_Some (SentinelApp.tbody_innerHTML Samples.empty_results)
  /\ network w (analyze_request (js "/api/analyze")
                  (trim (SentinelApp.value el)))
     = Responds true (Return result)
  /\ get_field result evidence = Return (JArr [JObj p])
  /\ JObj p ∈ [JObj p]
  /\ Shape.is_string (get p (field_name status)) = false
  /\ alerts (events (SentinelApp.handleAnalyze Samples.ascii_upper w).2)
     = alerts (events w) ++ [js "Analysis failed. Please try again."].
Proof.
  intros p result w el.
  do 3 (split; [reflexivity|]).
  split; [by eexists|].
  do 2 (split; [reflexivity|]).
  split; [apply list_elem_of_here|].
  split; [reflexivity|].
  apply (evidence_without_status_fails_vanilla_analysis Samples.ascii_upper
           w el Samples.empty_results result [JObj p] p);
    first [reflexivity | by eexists | apply list_elem_of_here].
Defined.

Lemma get_insert_eq (p : gmap jsstring JSValue) (k : jsstring) (v : JSValue) :
  get (<[k := v]> p) k = v.
Proof. unfold get. by rewrite lookup_insert_eq. Qed.

Lemma get_insert_ne (p : gmap jsstring JSValue) (k k' : jsstring) (v : JSValue) :
  k <> k' -> get (<[k := v]> p) k' = get p k'.
Proof. intros Hne. unfold get. by rewrite lookup_insert_ne. Qed.

(** The vanilla page puts the source of an evidence item into the HTML of
    its row as it is: whatever the string, markup included, it stands
    unchanged between a first part and a last part of the row that do not
    depend on it. *)
Theorem evidence_source_is_not_escaped
    (toUpperCase : jsstring -> jsstring) (p : gmap jsstring JSValue) :
  Shape.is_string (get p (field_name status)) = true ->
  Shape.primitive (get p (field_name details)) = true ->
  exists before after,
    forall src,
      SentinelApp.evidenceRow toUpperCase (JObj (<[js "source" := JStr src]> p))
      = Return (before ++ src ++ after).
Proof.
  intros Hst Hdet.
  destruct (get p (field_name status)) as [| | | |st| | | |] eqn:Est; try done.
  destruct (getStatusBadge_returns (JStr st) ltac:(by eexists))
    as (b & Hb & [cls Hcls]).
  destruct (primitive_stringable _ Hdet) as [det Hdett].
  eexists (SentinelApp.nl ++ js "        <tr>" ++ SentinelApp.nl
           ++ js "          <td>"), _.
  intros src. unfold SentinelApp.evidenceRow, SentinelApp.statusBadgeClass.
  cbn [get_field].
  change (field_name source) with (js "source").
  rewrite get_insert_eq, !get_insert_ne by done.
  rewrite Est. unfold mbind, Outcome_bind, mret, Outcome_ret.
  cbn [ToString bind_outcome SentinelApp.formatStatus].
  rewrite Hb. cbn [bind_outcome]. rewrite Hcls. cbn [bind_outcome].
  rewrite Hdett. cbn [bind_outcome].
  rewrite <- !app_assoc. reflexivity.
Qed.

Lemma evidence_source_is_not_escaped_witness :
  let p := object [("status", JStr (js "clean"));
                   ("details", JStr (js "0/70 engines flagged"))] in
  Shape.is_string (get p (field_name status)) = true
  /\ Shape.primitive (get p (field_name details)) = true
  /\ exists before after,
       forall src,
         SentinelApp.evidenceRow Samples.ascii_upper
           (JObj (<[js "source" := JStr src]> p))
         = Return (before ++ src ++ after).
Proof.
  intros p. split; [reflexivity|]. split; [reflexivity|].
  apply (evidence_source_is_not_escaped Samples.ascii_upper p); reflexivity.
Defined.

(* ===================================================================== *)
(** ** Checking an answer on the Education page *)
(* ===================================================================== *)

Lemma handleSubmit_blank (w : World EducationPage.State) :
  truthy (JStr (trim (EducationPage.answer (state w)))) = false ->
  EducationPage.handleSubmit w = (Return tt, w).
Proof.
  intros Hblank. unfold EducationPage.handleSubmit. run_handler.
  rewrite Hblank. by destruct w.
Qed.

(** [handleSubmit] in closed form. *)
Lemma handleSubmit_run (w : World EducationPage.State) :
  truthy (JStr (trim (EducationPage.answer (state w)))) = true ->
  let checked :=
    match network w (answer_request (state w)) with
    | Rejects e => Throw e
    | Responds _ json => json ≫= EducationPage.get_feedback
    end in
  EducationPage.handleSubmit w
  = (Return tt,
     {| state :=
          {| EducationPage.questions := EducationPage.questions (state w);
             EducationPage.currentIndex := EducationPage.currentIndex (state w);
             EducationPage.answer := EducationPage.answer (state w);
             EducationPage.feedback :=
               match checked with
               | Return JNull => None
               | Return fb => Some fb
               | Throw _ =>
                   Some (JStr (js "Failed to check answer. Please try again."))
               end;
             EducationPage.loading := false |};
        events :=
          events w ++ Fetch (answer_request (state w)) ::
            match checked with
            | Return _ => []
            | Throw e => [ConsoleError (js "Failed to check answer:") e]
            end;
        network := network w |}).
Proof.
  intros Hanswer checked. subst checked.
  unfold EducationPage.handleSubmit, EducationPage.setLoading,
    EducationPage.setFeedback.
  run_handler. rewrite Hanswer. cbn [negb network].
  fold (answer_request (state w)).
  destruct (network w (answer_request (state w))) as [e|ok [data|e]];
    cbn -[js answer_request]; rewrite <- ?app_assoc; try done.
  destruct (EducationPage.get_feedback data) as [[]|e];
    cbn -[js answer_request]; by rewrite <- ?app_assoc.
Qed.

(** A blank answer is not submitted: [handleSubmit] returns at once, with
    no request and nothing changed. *)
Theorem blank_answer_is_not_submitted (w : World EducationPage.State) :
  forallb is_whitespace (EducationPage.answer (state w)) = true ->
  EducationPage.handleSubmit w = (Return tt, w).
Proof.
  intros Hblank. apply handleSubmit_blank. by rewrite (trim_blank _ Hblank).
Qed.

Lemma blank_answer_is_not_submitted_witness :
  let w := Samples.world
             {| EducationPage.questions := [JStr (js "What is phishing?")];
                EducationPage.currentIndex := EducationPage.Int 0;
                EducationPage.answer := [32; 10; 9]%N;
                EducationPage.feedback := None;
                EducationPage.loading := false |}
             (Responds true (Return JNull)) in
  forallb is_whitespace (EducationPage.answer (state w)) = true
  /\ EducationPage.handleSubmit w = (Return tt, w).
Proof.
  intros w. split; [reflexivity|].
  apply (blank_answer_is_not_submitted w). reflexivity.
Defined.

(** The check of an answer does not look at the status of the response:
    whether ok or not, a body that parses to an object decides, and its
    [feedback] property becomes the feedback, even when there is none.
    One request is sent, with the question on display and the trimmed
    answer, and loading ends. *)
Theorem answer_check_ignores_status (w : World EducationPage.State)
    (ok : bool) (data fb : JSValue) :
  truthy (JStr (trim (EducationPage.answer (state w)))) = true ->
  network w (answer_request (state w)) = Responds ok (Return data) ->
  EducationPage.get_feedback data = Return fb ->
  let w' := (EducationPage.handleSubmit w).2 in
  EducationPage.feedback (state w')
  = match fb with JNull => None | _ => Some fb end
  /\ EducationPage.loading (state w') = false
  /\ events w' = events w ++ [Fetch (answer_request (state w))]
  /\ EducationPage.next_button_shown (state w')
     = negb (bool_decide (length (EducationPage.questions (state w)) = 0%nat))
       && truthy fb.
Proof.
  intros Hanswer Hnet Hfb w'. subst w'.
  rewrite (handleSubmit_run _ Hanswer), Hnet.
  cbn [mbind Outcome_bind bind_outcome]. rewrite Hfb.
  cbn [snd state events EducationPage.feedback EducationPage.loading].
  unfold EducationPage.next_button_shown.
  cbn [EducationPage.feedback EducationPage.questions].
  by destruct fb.
Qed.

Lemma answer_check_ignores_status_witness :
  let data := JObj (object [("error", JStr (js "Internal Server Error"))]) in
  let w := Samples.world
             {| EducationPage.questions := [JStr (js "What is phishing?")];
                EducationPage.currentIndex := EducationPage.Int 0;
                EducationPage.answer := js " a scam ";
                EducationPage.feedback := None;
                EducationPage.loading := false |}
             (Responds false (Return data)) in
  let w' := (EducationPage.handleSubmit w).2 in
  truthy (JStr (trim (EducationPage.answer (state w)))) = true
  /\ network w (answer_request (state w)) = Responds false (Return data)
  /\ EducationPage.get_feedback data = Return JUndefined
  /\ EducationPage.feedback (state w')
     = match JUndefined with JNull => None | _ => Some JUndefined end
  /\ EducationPage.loading (state w') = false
  /\ events w' = events w ++ [Fetch (answer_request (state w))]
  /\ EducationPage.next_button_shown (state w')
     = negb (bool_decide (length (EducationPage.questions (state w)) = 0%nat))
       && truthy JUndefined.
Proof.
  intros data w w'.
  do 3 (split; [reflexivity|]).
  apply (answer_check_ignores_status w false data JUndefined); reflexivity.
Defined.

(** When the check fails (the request is rejected, the body does not
    parse, or the body is [null]), the feedback is the fixed text 'Failed
    to check answer. Please try again.', loading ends, and with a question
    on the page the "Next Question" button is there. *)
Theorem answer_check_failure (w : World EducationPage.State) :
  truthy (JStr (trim (EducationPage.answer (state w)))) = true ->
  EducationPage.questions (state w) <> [] ->
  check_fails (network w (answer_request (state w))) ->
  let w' := (EducationPage.handleSubmit w).2 in
  EducationPage.feedback (state w')
  = Some (JStr (js "Failed to check answer. Please try again."))
  /\ EducationPage.loading (state w') = false
  /\ EducationPage.next_button_shown (state w') = true
  /\ requests (events w') = requests (events w) ++ [answer_request (state w)].
Proof.
  intros Hanswer Hq Hfail w'. subst w'.
  rewrite (handleSubmit_run _ Hanswer).
  cbn [snd state events EducationPage.feedback EducationPage.loading].
  unfold EducationPage.next_button_shown.
  cbn [EducationPage.feedback EducationPage.questions].
  rewrite requests_app.
  destruct (EducationPage.questions (state w)) as [|q qs]; [done|].
  destruct (network w (answer_request (state w))) as [e|ok [[]|e]];
    try done; by repeat split.
Qed.

Lemma answer_check_failure_witness :
  let w := Samples.world
             {| EducationPage.questions := [JStr (js "What is phishing?")];
                EducationPage.currentIndex := EducationPage.Int 0;
                EducationPage.answer := js "a scam";
                EducationPage.feedback := None;
                EducationPage.loading := false |}
             (Rejects TypeError) in
  let w' := (EducationPage.handleSubmit w).2 in
  truthy (JStr (trim (EducationPage.answer (state w)))) = true
  /\ EducationPage.questions (state w) <> []
  /\ check_fails (network w (answer_request (state w)))
  /\ EducationPage.feedback (state w')
     = Some (JStr (js "Failed to check answer. Please try again."))
  /\ EducationPage.loading (state w') = false
  /\ EducationPage.next_button_shown (state w') = true
  /\ requests (events w') = requests (events w) ++ [answer_request (state w)].
Proof.
  intros w w'.
  split; [reflexivity|]. split; [discriminate|]. split; [exact I|].
  apply (answer_check_failure w); [reflexivity | discriminate | exact I].
Defined.

(** "Next Question" clears the form: the answer is empty and the feedback
    gone, so the button itself disappears, the submit button is disabled,
    and a submit right after it does nothing. *)
Theorem handleNext_clears_the_form (w : World EducationPage.State) :
  let w' := {| state := EducationPage.handleNext (state w);
               events := events w; network := network w |} in
  EducationPage.next_button_shown (state w') = false
  /\ EducationPage.submit_button_enabled (state w') = false
  /\ EducationPage.handleSubmit w' = (Return tt, w').
Proof.
  intros w'. split; [|split].
  - unfold EducationPage.next_button_shown. cbn. apply andb_false_r.
  - unfold EducationPage.submit_button_enabled. cbn.
    rewrite orb_true_r. apply andb_false_r.
  - by apply handleSubmit_blank.
Qed.

